(** * display.py: overlaid histograms of two files of per-image ratios

    The script reads [mel_ratios.txt] and [nv_ratios.txt] with
    [pd.read_csv], draws two histograms on one set of axes with
    [plt.hist] and saves the figure to [ratio_distribution.png].

    The development embeds the script statement by statement.  The library
    calls it makes are embedded by the behaviour the libraries document for
    exactly the arguments the script passes:
    - binary64 numbers are [spec_float] values with precision 53 and
      [emax] 1024, so that bin edges and comparisons are the ones the
      interpreter computes;
    - [np.histogram] (reached through [plt.hist]) with an integer [bins] and
      an explicit [range];
    - the reader of [pd.read_csv] for plain comma separated text;
    - the process-wide figure registry of [matplotlib.pyplot]. *)

From Stdlib Require Import ZArith List String Ascii Bool Lia SpecFloat Permutation.
From Stdlib Require Import DecimalString.
From stdpp Require Import gmap strings list.

Import ListNotations.
Local Open Scope string_scope.

(** ** Binary64 arithmetic *)

Module Float64.

Definition float64 : Type := spec_float.

Definition prec : Z := 53.
Definition emax : Z := 1024.

(** [float(n)] for a Python integer [n]. *)
Definition of_Z (n : Z) : float64 := binary_normalize prec emax n 0 false.

Definition add : float64 -> float64 -> float64 := SFadd prec emax.
Definition sub : float64 -> float64 -> float64 := SFsub prec emax.
Definition mul : float64 -> float64 -> float64 := SFmul prec emax.
Definition div : float64 -> float64 -> float64 := SFdiv prec emax.

(** The comparisons [x < y], [x <= y], [x >= y], [x > y], [x == y]; every
    one of them is false as soon as an operand is NaN. *)
Definition ltb (x y : float64) : bool := SFltb x y.
Definition leb (x y : float64) : bool := SFleb x y.
Definition geb (x y : float64) : bool := SFleb y x.
Definition gtb (x y : float64) : bool := SFltb y x.
Definition eqb (x y : float64) : bool := SFeqb x y.

(** [np.isfinite]. *)
Definition is_finite (x : float64) : bool :=
  match x with
  | S754_zero _ | S754_finite _ _ _ => true
  | S754_infinity _ | S754_nan => false
  end.

Definition zero : float64 := S754_zero false.

(** Outcomes of a comparison that mean "at most", and the outcome of a
    chain of two such comparisons. *)
Definition le_or_lt (c : comparison) : bool :=
  match c with Gt => false | _ => true end.

Definition comp_seq (c1 c2 : comparison) : comparison :=
  match c1 with Eq => c2 | _ => c1 end.

(** A list whose elements grow strictly from each one to the next. *)
Fixpoint increasing (l : list float64) : bool :=
  match l with
  | a :: (b :: _) as t => ltb a b && increasing t
  | _ => true
  end.

(** The literals of the script and of the libraries' defaults.
    [0.05] is [0x1.999999999999ap-5], [0.5] is [0x1p-1]. *)
Definition f0_05 : float64 := S754_finite false 7205759403792794 (-57).
Definition f0_5 : float64 := S754_finite false 4503599627370496 (-53).
Definition f6_4 : float64 := S754_finite false 7205759403792794 (-50).
Definition f4_8 : float64 := S754_finite false 5404319552844595 (-50).

End Float64.

Import Float64.

(** ** numpy: [linspace], [bincount] and [histogram] *)

Module np.

(** [np.linspace(start, stop, num)] on binary64 scalars, with the default
    [endpoint=True]:
<<
    div = num - 1
    delta = stop - start
    y = arange(0, num)
    if div > 0:
        step = delta / div
        if step == 0: y /= div; y *= delta
        else:         y *= step
    else:
        y = y * delta
    y += start
    if num > 1: y[-1] = stop
>> *)
Definition linspace (start stop : float64) (num : nat) : list float64 :=
  let div_ := of_Z (Z.of_nat (num - 1)) in
  let delta := sub stop start in
  let y := map (fun i => of_Z (Z.of_nat i)) (seq 0 num) in
  let y :=
    if (0 <? num - 1)%nat then
      let step := div delta div_ in
      if eqb step zero
      then map (fun v => mul (div v div_) delta) y
      else map (fun v => mul v step) y
    else map (fun v => mul v delta) y in
  let y := map (fun v => add v start) y in
  if (1 <? num)%nat then <[(num - 1)%nat := stop]> y else y.

(** [_get_outer_edges(a, range)] for a [range] that is given: the range is
    refused with [ValueError] ([None] here) when it is reversed or not
    finite, and an empty range is widened by one half on each side. *)
Definition get_outer_edges (range : float64 * float64)
  : option (float64 * float64) :=
  let '(first_edge, last_edge) := range in
  if gtb first_edge last_edge then None
  else if negb (is_finite first_edge && is_finite last_edge) then None
  else if eqb first_edge last_edge
       then Some (sub first_edge f0_5, add last_edge f0_5)
       else Some (first_edge, last_edge).

(** [np.any(bin_edges[:-1] >= bin_edges[1:])]: some edge is not below the
    next one. *)
Fixpoint any_ge (bin_edges : list float64) : bool :=
  match bin_edges with
  | a :: (b :: _) as t => geb a b || any_ge t
  | _ => false
  end.

(** [_get_bin_edges(a, bins, range, None)] for an integer [bins]: [bins]
    below one is a [ValueError]; the edges are
    [linspace(first_edge, last_edge, bins + 1)], and edges that do not
    increase from each one to the next are a [ValueError] too ("Too many
    bins for data range"). *)
Definition get_bin_edges (bins : nat) (range : float64 * float64)
  : option (float64 * float64 * list float64) :=
  if (bins <? 1)%nat then None
  else
    match get_outer_edges range with
    | None => None
    | Some (first_edge, last_edge) =>
        let bin_edges := linspace first_edge last_edge (bins + 1) in
        if any_ge bin_edges then None
        else Some (first_edge, last_edge, bin_edges)
    end.

(** The bin of a value that lies in the range.  [uppers] are the right
    edges of the bins, in order.  "All but the last (righthand-most) bin is
    half-open": a value belongs to the first bin whose right edge exceeds
    it, and the last bin takes what is left, its own right edge included.
    numpy reaches that bin in two steps: it guesses the index as
    [(v - first_edge) / (last_edge - first_edge) * bins] and then moves it
    down or up by one after comparing [v] with [bin_edges[index]] and
    [bin_edges[index + 1]].  The two steps give the bin of the edges as
    long as the guess is at most one bin away from it, which is the case
    for the fifty bins on [0, 0.05] of the script (the guess is off by
    about 1e-14 of a bin); a range of a few subnormal steps, where the
    guess can be further off, is outside what this function describes. *)
Fixpoint bin_index (uppers : list float64) (v : float64) : nat :=
  match uppers with
  | [] => 0
  | [_] => 0
  | u :: us => if ltb v u then 0 else S (bin_index us v)
  end.

(** [np.bincount(x, minlength=minlength)]: entry [i] is the number of
    occurrences of [i] in [x]; the result has [max(x) + 1] entries (none
    for an empty [x]), and at least [minlength]. *)
Definition bincount (x : list nat) (minlength : nat) : list nat :=
  let size := match x with [] => 0%nat | _ => S (list_max x) end in
  map (fun i => count_occ Nat.eq_dec x i) (seq 0 (Nat.max minlength size)).

(** [np.histogram(a, bins, range)], no weights, no density: values outside
    [first_edge <= v <= last_edge] are dropped ([keep]), the others are
    counted in their bin.  The result is [(hist, bin_edges)]; [None] is
    [ValueError].  (numpy works through [a] in blocks and adds the
    [bincount] of each block to an array of [bins] zeros.) *)
Definition histogram (a : list float64) (bins : nat)
    (range : float64 * float64) : option (list nat * list float64) :=
  match get_bin_edges bins range with
  | None => None
  | Some (first_edge, last_edge, bin_edges) =>
      let keep := fun v => geb v first_edge && leb v last_edge in
      let tmp_a := List.filter keep a in
      let indices := map (bin_index (tl bin_edges)) tmp_a in
      Some (bincount indices bins, bin_edges)
  end.

End np.

(** ** matplotlib: what a figure holds *)

Module mpl.

(** One call of [hist] leaves one bar container on the axes: the counts
    and edges from [np.histogram] and the drawing properties passed on. *)
Record Series := {
  s_counts : list nat;
  s_edges : list float64;
  s_alpha : float64;
  s_color : string;
  s_label : string
}.

Record Axes := {
  series : list Series;
  xlim : option (float64 * float64);
  xlabel : string;
  ylabel : string;
  title : string;
  legend : option (list string)
}.

Record Figure := {
  figsize : float64 * float64;
  axes : option Axes
}.

Definition empty_axes : Axes :=
  {| series := []; xlim := None; xlabel := ""; ylabel := "";
     title := ""; legend := None |}.

(** [rcParams["figure.figsize"]] is [(6.4, 4.8)]. *)
Definition default_figure : Figure :=
  {| figsize := (f6_4, f4_8); axes := None |}.

(** The axes of a figure, made on first use. *)
Definition gca (fig : Figure) : Axes :=
  match axes fig with
  | Some ax => ax
  | None => empty_axes
  end.

Definition with_axes (f : Axes -> Axes) (fig : Figure) : Figure :=
  {| figsize := figsize fig; axes := Some (f (gca fig)) |}.

End mpl.

Import mpl.

(** ** External routines

    The two routines below are library code whose result the script passes
    on without looking at it: the conversion of the text of a field to a
    number, and the encoding of a figure as the bytes of a PNG file. *)

(** [to_float s] is the binary64 value the reader gives to the field [s]
    when [s] is a number (an empty field or a missing-value marker is NaN),
    and [None] when [s] is not numeric. *)
Class FloatParser := { to_float : string -> option float64 }.

(** [print_png fig] is the content of the file the backend writes for the
    figure [fig]. *)
Class Backend := { print_png : Figure -> string }.

(** ** The state of the process and the interpreter *)

(** The working directory (file name to content) and the figures pyplot
    keeps open, the current one first. *)
Record World := {
  files : gmap string string;
  figures : list Figure
}.

Inductive exn := FileNotFoundError | ParserError | ValueError.

(** The result of running statements from a state: normal completion, an
    exception that nothing catches, or [Unmodelled] when the input is one
    that the embedding of the reader does not cover (see [pd.read_csv]). *)
Inductive res (A : Type) :=
| Ret (a : A) (w : World)
| Raise (e : exn) (w : World)
| Unmodelled.
Arguments Ret {A} a w.
Arguments Raise {A} e w.
Arguments Unmodelled {A}.

Definition M (A : Type) : Type := World -> res A.

Definition ret {A} (a : A) : M A := fun w => Ret a w.

Definition bind {A B} (c : M A) (k : A -> M B) : M B :=
  fun w =>
    match c w with
    | Ret a w' => k a w'
    | Raise e w' => Raise e w'
    | Unmodelled => Unmodelled
    end.

Definition raise {A} (e : exn) : M A := fun w => Raise e w.
Definition unmodelled {A} : M A := fun _ => Unmodelled.
Definition get : M World := fun w => Ret w w.
Definition put (w : World) : M unit := fun _ => Ret tt w.

Notation "x <- c ;; k" := (bind c (fun x => k))
  (at level 100, c at next level, right associativity).
Notation "c ;; k" := (bind c (fun _ => k))
  (at level 100, right associativity).

(** ** pandas: [read_csv] *)

Module pd.

(** A frame with the two columns the script names.  The [ratio] column is
    numeric.  The [image] column keeps the text of its fields: the script
    never reads it, and the type pandas would give it is left out. *)
Record DataFrame := {
  image : list string;
  ratio : list float64
}.

Definition LF : ascii := "010"%char.
Definition CR : ascii := "013"%char.
Definition comma : ascii := ","%char.
Definition quote : ascii := "034"%char.

(** [s.split(sep)] for a one-character separator. *)
Fixpoint split (sep : ascii) (s : string) : list string :=
  match s with
  | EmptyString => [EmptyString]
  | String c s' =>
      if Ascii.eqb c sep then EmptyString :: split sep s'
      else
        match split sep s' with
        | f :: fs => String c f :: fs
        | [] => [String c EmptyString]
        end
  end.

(** The text the embedding covers: 7-bit characters, records ended by a
    line feed, no quoting. *)
Definition plain_char (c : ascii) : bool :=
  negb (Ascii.eqb c quote) && negb (Ascii.eqb c CR)
  && (nat_of_ascii c <? 128)%nat.

Definition plain_text (s : string) : bool :=
  forallb plain_char (list_ascii_of_string s).

(** The records of a file: its lines, the empty ones skipped
    ([skip_blank_lines=True] is the default). *)
Definition records (text : string) : list string :=
  List.filter (fun l => negb (String.eqb l EmptyString)) (split LF text).

(** A record of exactly two fields. *)
Definition fields (record : string) : option (string * string) :=
  match split comma record with
  | [a; b] => Some (a, b)
  | _ => None
  end.

(** All the elements of a list of options, if none is missing. *)
Fixpoint sequence {A} (l : list (option A)) : option (list A) :=
  match l with
  | [] => Some []
  | Some a :: l' =>
      match sequence l' with
      | Some r => Some (a :: r)
      | None => None
      end
  | None :: _ => None
  end.

(** [header=k] asks for a header row that a file with records does not
    have: pandas raises [ParserError] ("Passed header=k but only n lines in
    file").  A file without any record passes. *)
Definition header_beyond (header : option nat) (recs : list string) : bool :=
  match header with
  | None => false
  | Some k => negb (length recs =? 0)%nat && (length recs <=? k)%nat
  end.

(** The cells of a file: [None] when the text is not plain, a data row does
    not have exactly two fields, or the header row lies beyond the records.
    With [header=None] every record is a data row; with [header=k] the
    records up to and including the [k]-th are left out of the data. *)
Definition tokenize (header : option nat) (text : string)
  : option (list (string * string)) :=
  if plain_text text then
    if header_beyond header (records text) then None
    else
      let rows :=
        match header with
        | None => records text
        | Some k => skipn (S k) (records text)
        end in
      sequence (map fields rows)
  else None.

Section Reader.
Context `{FloatParser}.

(** The frame of a list of cells: [None] when a ratio is not numeric. *)
Definition convert (cells : list (string * string)) : option DataFrame :=
  match sequence (map (fun c => to_float (snd c)) cells) with
  | Some values => Some {| image := map fst cells; ratio := values |}
  | None => None
  end.

(** The frame of a text. *)
Definition parse (header : option nat) (text : string) : option DataFrame :=
  match tokenize header text with
  | None => None
  | Some cells => convert cells
  end.

(** [pd.read_csv(path, header=header, names=['image', 'ratio'])] with
    the other options at their defaults.  A missing file raises
    [FileNotFoundError], a header row beyond the records of the file
    [ParserError].

    Covered: plain text whose records have two fields each, the second
    one numeric.  For anything else (quoting, carriage returns, bytes
    above 127, a record with one field or with three, a ratio that is
    not a number) the result is [Unmodelled]. *)
Definition read_csv (path : string) (header : option nat) : M DataFrame :=
  w <- get ;;
  match files w !! path with
  | None => raise FileNotFoundError
  | Some text =>
      if plain_text text && header_beyond header (records text)
      then raise ParserError
      else
        match parse header text with
        | None => unmodelled
        | Some df => ret df
        end
  end.

End Reader.

End pd.

(** ** matplotlib.pyplot *)

Module plt.

(** [plt.gcf()]: the current figure; one is made when none is open. *)
Definition gcf : M Figure :=
  w <- get ;;
  match figures w with
  | fig :: _ => ret fig
  | [] =>
      put {| files := files w; figures := [default_figure] |} ;;
      ret default_figure
  end.

(** Replace the current figure by [f] of it. *)
Definition on_current (f : Figure -> Figure) : M unit :=
  fig <- gcf ;;
  w <- get ;;
  put {| files := files w; figures := f fig :: tl (figures w) |}.

(** [plt.figure(figsize=figsize)]: a new figure, which becomes current. *)
Definition figure (figsize : float64 * float64) : M unit :=
  w <- get ;;
  put {| files := files w;
         figures := {| mpl.figsize := figsize; axes := None |} :: figures w |}.

(** [plt.hist(x, bins=bins, alpha=alpha, color=color, label=label,
    range=range)] for one data set: the counts of [np.histogram] become a
    bar container on the current axes. *)
Definition hist (x : list float64) (bins : nat) (alpha : float64)
    (color label : string) (range : float64 * float64) : M unit :=
  match np.histogram x bins range with
  | None => raise ValueError
  | Some (m, edges) =>
      let s := {| s_counts := m; s_edges := edges; s_alpha := alpha;
                  s_color := color; s_label := label |} in
      on_current (with_axes (fun ax =>
        {| series := series ax ++ [s]; xlim := xlim ax;
           xlabel := xlabel ax; ylabel := ylabel ax; title := title ax;
           legend := legend ax |}))
  end.

Definition xlim (left right : float64) : M unit :=
  on_current (with_axes (fun ax =>
    {| series := series ax; mpl.xlim := Some (left, right);
       xlabel := xlabel ax; ylabel := ylabel ax; title := title ax;
       legend := legend ax |})).

Definition xlabel (s : string) : M unit :=
  on_current (with_axes (fun ax =>
    {| series := series ax; mpl.xlim := mpl.xlim ax;
       mpl.xlabel := s; ylabel := ylabel ax; title := title ax;
       legend := legend ax |})).

Definition ylabel (s : string) : M unit :=
  on_current (with_axes (fun ax =>
    {| series := series ax; mpl.xlim := mpl.xlim ax;
       mpl.xlabel := mpl.xlabel ax; mpl.ylabel := s; title := title ax;
       legend := legend ax |})).

Definition title (s : string) : M unit :=
  on_current (with_axes (fun ax =>
    {| series := series ax; mpl.xlim := mpl.xlim ax;
       mpl.xlabel := mpl.xlabel ax; mpl.ylabel := mpl.ylabel ax;
       mpl.title := s; legend := legend ax |})).

(** A label that starts with an underscore is kept out of the legend. *)
Definition in_legend (label : string) : bool :=
  match label with
  | String "_" _ => false
  | _ => true
  end.

(** [plt.legend()]: one entry for each labelled series drawn so far. *)
Definition legend : M unit :=
  on_current (with_axes (fun ax =>
    {| series := series ax; mpl.xlim := mpl.xlim ax;
       mpl.xlabel := mpl.xlabel ax; mpl.ylabel := mpl.ylabel ax;
       mpl.title := mpl.title ax;
       mpl.legend :=
         Some (List.filter in_legend (map s_label (series ax))) |})).

Section Saving.
Context `{Backend}.

(** [plt.savefig(fname)]: the current figure is written to [fname],
    replacing what the file held.  (Every name of the working directory
    can be written in this embedding.) *)
Definition savefig (fname : string) : M unit :=
  fig <- gcf ;;
  w <- get ;;
  put {| files := <[fname := print_png fig]> (files w);
         figures := figures w |}.

End Saving.

(** [plt.close()]: the current figure is closed, if there is one. *)
Definition close : M unit :=
  w <- get ;;
  put {| files := files w; figures := tl (figures w) |}.

End plt.

(** ** The script *)

Section Script.
Context `{FloatParser} `{Backend}.

Definition display : M unit :=
  (* Read the data from both files *)
  mel_data <- pd.read_csv "mel_ratios.txt" None ;;
  nv_data <- pd.read_csv "nv_ratios.txt" None ;;
  (* Create the plot *)
  plt.figure (of_Z 10, of_Z 6) ;;
  plt.hist (pd.ratio mel_data) 50 f0_5 "red" "Melanoma" (of_Z 0, f0_05) ;;
  plt.hist (pd.ratio nv_data) 50 f0_5 "blue" "Normal" (of_Z 0, f0_05) ;;
  (* Customize the plot *)
  plt.xlim (of_Z 0) f0_05 ;;
  plt.xlabel "Ratio" ;;
  plt.ylabel "Frequency" ;;
  plt.title "Distribution of Ratios: Melanoma vs Normal" ;;
  plt.legend ;;
  (* Save the plot instead of showing it *)
  plt.savefig "ratio_distribution.png" ;;
  plt.close.

(** A fresh interpreter in a working directory [fs]: no figure is open. *)
Definition start (fs : gmap string string) : World :=
  {| files := fs; figures := [] |}.

(** Running the script in the working directory [fs]. *)
Definition run (fs : gmap string string) : res unit := display (start fs).

End Script.

(** The exit status of the interpreter: 0 when the script runs to its end,
    1 when an exception reaches the top level. *)
Definition exit_status {A} (r : res A) : option Z :=
  match r with
  | Ret _ _ => Some 0%Z
  | Raise _ _ => Some 1%Z
  | Unmodelled => None
  end.

(** The working directory a run leaves behind. *)
Definition files_after {A} (r : res A) : option (gmap string string) :=
  match r with
  | Ret _ w | Raise _ w => Some (files w)
  | Unmodelled => None
  end.

(** ** What the statements below are about *)

Definition mel_path : string := "mel_ratios.txt".
Definition nv_path : string := "nv_ratios.txt".
Definition png_path : string := "ratio_distribution.png".

(** The content of [ratio_distribution.png] after a run. *)
Definition output_image {A} (r : res A) : option string :=
  match files_after r with
  | Some fs => fs !! png_path
  | None => None
  end.

(** The range of both calls of [hist]: [0 <= v <= 0.05]. *)
Definition in_range (v : float64) : bool := geb v (of_Z 0) && leb v f0_05.

(** The bin edges of both calls of [hist]. *)
Definition bin_edges : list float64 := np.linspace (of_Z 0) f0_05 51.

(** The bin counts of a column. *)
Definition counts (x : list float64) : list nat :=
  np.bincount (map (np.bin_index (tl bin_edges)) (List.filter in_range x)) 50.

(** Membership of [v] in bin [i] of the bins delimited by [edges]: bin [i] is
    [edges[i] <= v < edges[i+1]], and the last bin also holds its right
    edge. *)
Definition in_bin (edges : list float64) (i : nat) (v : float64) : bool :=
  match edges !! i, edges !! (S i) with
  | Some lo, Some hi =>
      leb lo v && (ltb v hi || ((S (S i) =? length edges)%nat && leb v hi))
  | _, _ => false
  end.

Definition bars (x : list float64) (color label : string) : Series :=
  {| s_counts := counts x; s_edges := bin_edges; s_alpha := f0_5;
     s_color := color; s_label := label |}.

(** The figure the script has drawn when it reaches [savefig], for the two
    ratio columns [x] and [y]. *)
Definition drawn (x y : list float64) : Figure :=
  {| figsize := (of_Z 10, of_Z 6);
     axes := Some
       {| series := [bars x "red" "Melanoma"; bars y "blue" "Normal"];
          xlim := Some (of_Z 0, f0_05);
          xlabel := "Ratio";
          ylabel := "Frequency";
          title := "Distribution of Ratios: Melanoma vs Normal";
          legend := Some ["Melanoma"; "Normal"] |} |}.

(** The text of a file from its lines: every line is ended by a line feed,
    the last one only when [trailing] is set. *)
Fixpoint unlines (trailing : bool) (lines : list string) : string :=
  match lines with
  | [] => EmptyString
  | [l] => if trailing then l ++ String pd.LF EmptyString else l
  | l :: ls => l ++ String pd.LF (unlines trailing ls)
  end.

(** The line of a record. *)
Definition line_of (r : string * string) : string :=
  fst r ++ String pd.comma (snd r).

(** A field as the input format has it: plain characters, no comma and no
    line feed. *)
Definition field_char (c : ascii) : bool :=
  pd.plain_char c && negb (Ascii.eqb c pd.comma) && negb (Ascii.eqb c pd.LF).

Definition is_field (s : string) : bool :=
  forallb field_char (list_ascii_of_string s).

(** Whether the character [c] occurs in [s]. *)
Fixpoint has_char (c : ascii) (s : string) : bool :=
  match s with
  | EmptyString => false
  | String c' s' => Ascii.eqb c' c || has_char c s'
  end.

(** A record as the input format has it: an identifier and a ratio that
    the reader takes for a number. *)
Definition row_ok `{FloatParser} (r : string * string) : bool :=
  is_field (fst r) && is_field (snd r) &&
  match to_float (snd r) with Some _ => true | None => false end.

(** The number a record holds. *)
Definition value_of `{FloatParser} (r : string * string) : float64 :=
  match to_float (snd r) with Some v => v | None => S754_nan end.

(** The file [path] is there and the reader covers it. *)
Definition readable `{FloatParser} (fs : gmap string string) (path : string)
  : bool :=
  match fs !! path with
  | Some text =>
      match pd.parse None text with Some _ => true | None => false end
  | None => false
  end.

(** The cells of the file [path]. *)
Definition cells_of (fs : gmap string string) (path : string)
  : option (list (string * string)) :=
  match fs !! path with
  | Some text => pd.tokenize None text
  | None => None
  end.

(** ** Sample instances of the external routines *)

(** A converter for short decimal fields: an optional minus sign, then at
    most fifteen digits with at most one point among them.  The value is
    the quotient of two integers that binary64 holds exactly, rounded once.
    The empty field is NaN. *)
Fixpoint digits_value (acc : Z) (seen_point : bool) (decimals : nat)
    (ndigits : nat) (s : string) : option (Z * nat * nat) :=
  match s with
  | EmptyString => Some (acc, decimals, ndigits)
  | String c s' =>
      if Ascii.eqb c "."%char then
        if seen_point then None
        else digits_value acc true decimals ndigits s'
      else
        let d := nat_of_ascii c in
        if ((48 <=? d) && (d <=? 57))%nat then
          digits_value (acc * 10 + Z.of_nat (d - 48)) seen_point
            (if seen_point then S decimals else decimals) (S ndigits) s'
        else None
  end.

Definition short_decimal (s : string) : option float64 :=
  match s with
  | EmptyString => Some S754_nan
  | String c s' =>
      let neg := Ascii.eqb c "-"%char in
      match digits_value 0 false 0 0 (if neg then s' else s) with
      | Some (m, k, n) =>
          if ((1 <=? n) && (n <=? 15))%nat then
            let v := div (of_Z m) (of_Z (10 ^ Z.of_nat k)) in
            Some (if neg then SFopp v else v)
          else None
      | None => None
      end
  end.

Definition short_decimal_parser : FloatParser := {| to_float := short_decimal |}.

(** A backend that writes the title and, for each series, its label and
    its counts. *)
Definition show_nat (n : nat) : string := NilEmpty.string_of_uint (Nat.to_uint n).

Definition show_series (s : Series) : string :=
  s_label s ++ ":" ++ String.concat "," (map show_nat (s_counts s)).

Definition show_figure (fig : Figure) : string :=
  String.concat (String pd.LF EmptyString)
    (title (gca fig) :: map show_series (series (gca fig))).

Definition text_backend : Backend := {| print_png := show_figure |}.

(** A working directory with the two inputs. *)
Definition sample_dir (mel nv : string) : gmap string string :=
  <[mel_path := mel]> (<[nv_path := nv]> ∅).

(** The example of the specification: two melanoma records, one normal
    record; the same with the lines of the first file exchanged, and with
    other identifiers. *)
Definition sample_mel_rows : list (string * string) :=
  [("img1", "0.01"); ("img2", "0.02")].
Definition sample_nv_rows : list (string * string) := [("img1", "0.005")].

Definition sample_mel : string := unlines true (map line_of sample_mel_rows).
Definition sample_nv : string := unlines true (map line_of sample_nv_rows).

Definition sample_mel_swapped : string :=
  unlines true (map line_of [("img2", "0.02"); ("img1", "0.01")]).
Definition sample_mel_renamed : string :=
  unlines true (map line_of [("a.jpg", "0.01"); ("b.jpg", "0.02")]).

(** The state the script leaves when it is run on the example. *)
Definition sample_after : World :=
  match @run short_decimal_parser text_backend (sample_dir sample_mel sample_nv) with
  | Ret _ w => w
  | _ => start ∅
  end.

(** * Properties *)

(** ** The order of binary64 numbers *)

Section Float64Order.

Ltac cmp_cases :=
  repeat match goal with
  | |- context [Z.compare ?x ?y] => destruct (Z.compare_spec x y)
  | |- context [Pos.compare_cont Eq ?x ?y] =>
      change (Pos.compare_cont Eq x y) with (Pos.compare x y);
      destruct (Pos.compare_spec x y)
  end.

Lemma SFcompare_chain a b c c1 c2 :
  SFcompare a b = Some c1 -> SFcompare b c = Some c2 ->
  le_or_lt c1 = true -> le_or_lt c2 = true ->
  SFcompare a c = Some (comp_seq c1 c2).
Proof.
  destruct a as [[]|[]| |[] ma ea], b as [[]|[]| |[] mb eb],
    c as [[]|[]| |[] mc ec]; simpl; intros H1 H2 L1 L2;
    try discriminate;
    injection H1 as <-; injection H2 as <-; simpl in *;
    try discriminate; try reflexivity;
    revert L1 L2; cmp_cases; simpl; intros; subst;
    try discriminate; try reflexivity; try lia.
Qed.

Lemma SFcompare_swap a b c :
  SFcompare a b = Some c -> SFcompare b a = Some (CompOpp c).
Proof.
  destruct a as [[]|[]| |[] ma ea], b as [[]|[]| |[] mb eb]; simpl;
    intros E; try discriminate; injection E as <-; try reflexivity;
    rewrite (Z.compare_antisym ea eb);
    change (Pos.compare_cont Eq ma mb) with (Pos.compare ma mb);
    change (Pos.compare_cont Eq mb ma) with (Pos.compare mb ma);
    rewrite (Pos.compare_antisym ma mb);
    destruct (Z.compare ea eb), (Pos.compare ma mb); reflexivity.
Qed.

Lemma SFcompare_defined a b :
  a <> S754_nan -> b <> S754_nan -> exists c, SFcompare a b = Some c.
Proof.
  destruct a as [[]|[]| |[] ma ea], b as [[]|[]| |[] mb eb]; simpl;
    intros Ha Hb; try congruence; eauto.
Qed.

Lemma leb_not_nan a b : leb a b = true -> a <> S754_nan /\ b <> S754_nan.
Proof.
  unfold leb, SFleb. destruct a, b; simpl; try discriminate; split; discriminate.
Qed.

Lemma ltb_not_nan a b : ltb a b = true -> a <> S754_nan /\ b <> S754_nan.
Proof.
  unfold ltb, SFltb. destruct a, b; simpl; try discriminate; split; discriminate.
Qed.

Lemma ltb_leb a b : ltb a b = true -> leb a b = true.
Proof.
  unfold ltb, leb, SFltb, SFleb. destruct (SFcompare a b) as [[]|]; congruence.
Qed.

Lemma leb_ltb_trans a b c : leb a b = true -> ltb b c = true -> ltb a c = true.
Proof.
  unfold ltb, leb, SFltb, SFleb.
  destruct (SFcompare a b) as [c1|] eqn:E1; [|discriminate].
  destruct (SFcompare b c) as [c2|] eqn:E2; [|discriminate].
  intros L1 L2.
  destruct c1, c2; try discriminate;
    rewrite (SFcompare_chain _ _ _ _ _ E1 E2 eq_refl eq_refl); reflexivity.
Qed.

Lemma ltb_leb_trans a b c : ltb a b = true -> leb b c = true -> ltb a c = true.
Proof.
  unfold ltb, leb, SFltb, SFleb.
  destruct (SFcompare a b) as [c1|] eqn:E1; [|discriminate].
  destruct (SFcompare b c) as [c2|] eqn:E2; [|discriminate].
  intros L1 L2.
  destruct c1, c2; try discriminate;
    rewrite (SFcompare_chain _ _ _ _ _ E1 E2 eq_refl eq_refl); reflexivity.
Qed.

Lemma leb_trans a b c : leb a b = true -> leb b c = true -> leb a c = true.
Proof.
  unfold leb, SFleb.
  destruct (SFcompare a b) as [c1|] eqn:E1; [|discriminate].
  destruct (SFcompare b c) as [c2|] eqn:E2; [|discriminate].
  intros L1 L2.
  destruct c1, c2; try discriminate;
    rewrite (SFcompare_chain _ _ _ _ _ E1 E2 eq_refl eq_refl); reflexivity.
Qed.

Lemma ltb_trans a b c : ltb a b = true -> ltb b c = true -> ltb a c = true.
Proof. intros H1 H2. eapply ltb_leb_trans; [exact H1 | apply ltb_leb, H2]. Qed.

(** [x < y] and [y <= x] exclude each other. *)
Lemma ltb_leb_false a b : ltb a b = true -> leb b a = false.
Proof.
  unfold ltb, leb, SFltb, SFleb.
  destruct (SFcompare a b) as [c1|] eqn:E1; [|discriminate].
  rewrite (SFcompare_swap _ _ _ E1). destruct c1; simpl; congruence.
Qed.

Lemma leb_ltb_false a b : leb a b = true -> ltb b a = false.
Proof.
  unfold ltb, leb, SFltb, SFleb.
  destruct (SFcompare a b) as [c1|] eqn:E1; [|discriminate].
  rewrite (SFcompare_swap _ _ _ E1). destruct c1; simpl; congruence.
Qed.

(** Two numbers are ordered one way or the other. *)
Lemma ltb_false_leb a b :
  a <> S754_nan -> b <> S754_nan -> ltb a b = false -> leb b a = true.
Proof.
  intros Ha Hb. unfold ltb, leb, SFltb, SFleb.
  destruct (SFcompare_defined a b Ha Hb) as [c E]. rewrite E.
  rewrite (SFcompare_swap _ _ _ E). destruct c; simpl; congruence.
Qed.

Lemma ltb_irrefl a : ltb a a = false.
Proof.
  destruct (ltb a a) eqn:E; [|reflexivity].
  pose proof (ltb_leb_false _ _ E) as F. apply ltb_leb in E. congruence.
Qed.

End Float64Order.

(** ** Bins *)

Section Bins.

Lemma increasing_tail a l : increasing (a :: l) = true -> increasing l = true.
Proof.
  destruct l as [|b l]; [reflexivity|]. simpl.
  intros H. apply andb_prop in H. apply H.
Qed.

(** In an increasing list a later element is greater. *)
Lemma increasing_lookup_lt (l : list float64) :
  increasing l = true ->
  forall i j a b, (i < j)%nat -> l !! i = Some a -> l !! j = Some b ->
  ltb a b = true.
Proof.
  induction l as [|x l IH]; intros Hl i j a b Hij Ha Hb.
  - discriminate.
  - destruct j as [|j]; [lia|]. simpl in Hb.
    destruct i as [|i].
    + simpl in Ha. injection Ha as ->.
      clear Hij. revert j b Hb.
      induction l as [|y l IHl]; intros j b Hb; [discriminate|].
      simpl in Hl. apply andb_prop in Hl as [Hxy Hl].
      destruct j as [|j].
      * simpl in Hb. injection Hb as ->. exact Hxy.
      * simpl in Hb. apply ltb_trans with y; [exact Hxy|].
        apply (IH Hl 0%nat (S j) y b); [lia|reflexivity|exact Hb].
    + simpl in Ha. apply (IH (increasing_tail _ _ Hl) i j); [lia|exact Ha|exact Hb].
Qed.

Lemma last_default (l : list float64) d d' :
  l <> [] -> List.last l d = List.last l d'.
Proof.
  induction l as [|a l IH]; [congruence|]. intros _.
  destruct l as [|b l]; [reflexivity|].
  change (List.last (b :: l) d = List.last (b :: l) d').
  apply IH. discriminate.
Qed.

Lemma lookup_last (l : list float64) d :
  l <> [] -> l !! Nat.pred (length l) = Some (List.last l d).
Proof.
  induction l as [|a l IH]; [congruence|]. intros _.
  destruct l as [|b l]; [reflexivity|].
  change (List.last (a :: b :: l) d) with (List.last (b :: l) d).
  rewrite <- IH by discriminate. reflexivity.
Qed.

Lemma in_bin_cons a l i v : in_bin (a :: l) (S i) v = in_bin l i v.
Proof. unfold in_bin. simpl. reflexivity. Qed.

Lemma bin_index_lt uppers v :
  uppers <> [] -> (np.bin_index uppers v < length uppers)%nat.
Proof.
  induction uppers as [|u us IH]; [congruence|]. intros _.
  destruct us as [|u' us]; [simpl; lia|].
  change (np.bin_index (u :: u' :: us) v)
    with (if ltb v u then 0%nat else S (np.bin_index (u' :: us) v)).
  destruct (ltb v u); [simpl; lia|].
  assert (np.bin_index (u' :: us) v < length (u' :: us))%nat
    by (apply IH; discriminate).
  simpl in *. lia.
Qed.

(** A value between the first and the last edge lies in the bin that
    [bin_index] gives. *)
Lemma bin_index_in_bin uppers :
  forall lo v, uppers <> [] -> increasing (lo :: uppers) = true ->
  leb lo v = true -> leb v (List.last uppers lo) = true ->
  in_bin (lo :: uppers) (np.bin_index uppers v) v = true.
Proof.
  induction uppers as [|u us IH]; intros lo v Hne Hinc Hlo Hhi; [congruence|].
  destruct us as [|u' us].
  - simpl in Hhi. unfold in_bin. simpl. rewrite Hlo, Hhi.
    simpl. apply orb_true_r.
  - change (np.bin_index (u :: u' :: us) v)
      with (if ltb v u then 0%nat else S (np.bin_index (u' :: us) v)).
    destruct (ltb v u) eqn:Hvu.
    + unfold in_bin. simpl. rewrite Hlo, Hvu. reflexivity.
    + rewrite in_bin_cons. apply IH.
      * discriminate.
      * apply (increasing_tail _ _ Hinc).
      * apply ltb_false_leb; [| |exact Hvu].
        -- apply (leb_not_nan _ _ Hlo).
        -- simpl in Hinc. apply andb_prop in Hinc as [H1 _].
           apply (ltb_not_nan _ _ H1).
      * change (List.last (u :: u' :: us) lo)
          with (List.last (u' :: us) lo) in Hhi.
        rewrite (last_default (u' :: us) u lo); [exact Hhi|discriminate].
Qed.

(** A value lies in no other bin than the one [bin_index] gives. *)
Lemma in_bin_bin_index uppers :
  forall lo i v, increasing (lo :: uppers) = true ->
  in_bin (lo :: uppers) i v = true -> np.bin_index uppers v = i.
Proof.
  induction uppers as [|u us IH]; intros lo i v Hinc Hin.
  - unfold in_bin in Hin. simpl in Hin. destruct i; discriminate.
  - destruct us as [|u' us].
    + destruct i as [|i]; [reflexivity|].
      unfold in_bin in Hin. simpl in Hin. destruct i; discriminate.
    + change (np.bin_index (u :: u' :: us) v)
        with (if ltb v u then 0%nat else S (np.bin_index (u' :: us) v)).
      destruct i as [|i].
      * unfold in_bin in Hin. simpl in Hin.
        apply andb_prop in Hin as [_ Hin]. rewrite orb_false_r in Hin.
        rewrite Hin. reflexivity.
      * rewrite in_bin_cons in Hin.
        pose proof (increasing_tail _ _ Hinc) as Hinc'.
        assert (Hu : leb u v = true).
        { unfold in_bin in Hin.
          destruct ((u :: u' :: us) !! i) as [e|] eqn:Ei; [|discriminate].
          destruct ((u :: u' :: us) !! S i) as [e'|]; [|discriminate].
          apply andb_prop in Hin as [Hev _].
          destruct i as [|i].
          - simpl in Ei. injection Ei as ->. exact Hev.
          - apply ltb_leb. apply ltb_leb_trans with e; [|exact Hev].
            apply (increasing_lookup_lt _ Hinc' 0%nat (S i)); [lia|reflexivity|exact Ei]. }
        rewrite (leb_ltb_false _ _ Hu). f_equal.
        apply (IH u i v Hinc' Hin).
Qed.

(** The values of a bin lie between the first and the last edge. *)
Lemma in_bin_in_outer lo uppers i v :
  increasing (lo :: uppers) = true ->
  in_bin (lo :: uppers) i v = true ->
  leb lo v = true /\ leb v (List.last uppers lo) = true.
Proof.
  intros Hinc Hin. unfold in_bin in Hin.
  destruct ((lo :: uppers) !! i) as [e|] eqn:Ei; [|discriminate].
  destruct ((lo :: uppers) !! S i) as [e'|] eqn:Ei'; [|discriminate].
  apply andb_prop in Hin as [Hev Hve]. split.
  - destruct i as [|i].
    + simpl in Ei. injection Ei as ->. exact Hev.
    + apply ltb_leb. apply ltb_leb_trans with e; [|exact Hev].
      apply (increasing_lookup_lt _ Hinc 0%nat (S i)); [lia|reflexivity|exact Ei].
  - assert (Hve' : leb v e' = true).
    { apply orb_prop in Hve as [H|H]; [apply ltb_leb, H|].
      apply andb_prop in H. apply H. }
    simpl in Ei'.
    assert (Hlast : exists n, uppers !! n = Some (List.last uppers lo) /\ (i <= n)%nat).
    { exists (Nat.pred (length uppers)).
      assert (Hlen : (i < length uppers)%nat) by (apply lookup_lt_Some in Ei'; exact Ei').
      split; [|lia].
      apply lookup_last. destruct uppers; [simpl in Hlen; lia|discriminate]. }
    destruct Hlast as (n & Hn & Hin').
    destruct (Nat.eq_dec i n) as [->|Hne].
    + rewrite Hn in Ei'. injection Ei' as <-. exact Hve'.
    + apply leb_trans with e'; [exact Hve'|]. apply ltb_leb.
      apply (increasing_lookup_lt _ Hinc (S i) (S n)); [lia|exact Ei'|exact Hn].
Qed.

End Bins.

(** ** Counting *)

Section Counting.

Lemma count_occ_indicator (l : list nat) (a s n : nat) :
  list_sum (map (fun i => count_occ Nat.eq_dec (a :: l) i) (seq s n)) =
  ((if (s <=? a)%nat && (a <? s + n)%nat then 1 else 0) +
   list_sum (map (fun i => count_occ Nat.eq_dec l i) (seq s n)))%nat.
Proof.
  revert s. induction n as [|n IH]; intros s.
  - simpl. destruct (s <=? a)%nat eqn:E1, (a <? s + 0)%nat eqn:E2;
      try reflexivity.
    apply Nat.leb_le in E1. apply Nat.ltb_lt in E2. lia.
  - change (list_sum (map (fun i => count_occ Nat.eq_dec (a :: l) i) (seq s (S n))))
      with (count_occ Nat.eq_dec (a :: l) s +
            list_sum (map (fun i => count_occ Nat.eq_dec (a :: l) i) (seq (S s) n)))%nat.
    change (list_sum (map (fun i => count_occ Nat.eq_dec l i) (seq s (S n))))
      with (count_occ Nat.eq_dec l s +
            list_sum (map (fun i => count_occ Nat.eq_dec l i) (seq (S s) n)))%nat.
    rewrite IH.
    cbn [count_occ]. destruct (Nat.eq_dec a s) as [->|Hne].
    + replace (s <=? s)%nat with true by (symmetry; apply Nat.leb_le; lia).
      replace (s <? s + S n)%nat with true by (symmetry; apply Nat.ltb_lt; lia).
      replace (S s <=? s)%nat with false by (symmetry; apply Nat.leb_gt; lia).
      simpl. reflexivity.
    + destruct (s <=? a)%nat eqn:E1, (a <? s + S n)%nat eqn:E2,
        (S s <=? a)%nat eqn:E3, (a <? S s + n)%nat eqn:E4; simpl;
        try lia;
        repeat match goal with
        | H : (_ <=? _)%nat = true |- _ => apply Nat.leb_le in H
        | H : (_ <=? _)%nat = false |- _ => apply Nat.leb_gt in H
        | H : (_ <? _)%nat = true |- _ => apply Nat.ltb_lt in H
        | H : (_ <? _)%nat = false |- _ => apply Nat.ltb_ge in H
        end; lia.
Qed.

(** Every index below [n] is counted once among the first [n] entries. *)
Lemma list_sum_count_occ (l : list nat) (n : nat) :
  Forall (fun i => (i < n)%nat) l ->
  list_sum (map (fun i => count_occ Nat.eq_dec l i) (seq 0 n)) = length l.
Proof.
  induction 1 as [|a l Ha Hl IH].
  - induction (seq 0 n) as [|x xs IHx]; simpl; [reflexivity|exact IHx].
  - rewrite count_occ_indicator, IH.
    replace (0 <=? a)%nat with true by reflexivity.
    replace (a <? 0 + n)%nat with true by (symmetry; apply Nat.ltb_lt; lia).
    reflexivity.
Qed.

(** With indices below [minlength], [bincount] has [minlength] entries. *)
Lemma bincount_exact (x : list nat) (n : nat) :
  Forall (fun i => (i < n)%nat) x ->
  np.bincount x n = map (fun i => count_occ Nat.eq_dec x i) (seq 0 n).
Proof.
  intros Hx. unfold np.bincount.
  replace (Nat.max n _) with n; [reflexivity|].
  destruct x as [|a x]; [lia|].
  assert (list_max (a :: x) <= Nat.pred n)%nat.
  { apply list_max_le. eapply List.Forall_impl; [|exact Hx].
    simpl. intros; lia. }
  inversion Hx; subst. lia.
Qed.

Lemma count_occ_map_filter {A} (f : A -> nat) (l : list A) (i : nat) :
  count_occ Nat.eq_dec (map f l) i =
  length (List.filter (fun v => (f v =? i)%nat) l).
Proof.
  induction l as [|a l IH]; [reflexivity|].
  cbn [map count_occ List.filter].
  destruct (Nat.eq_dec (f a) i) as [E|E].
  - apply Nat.eqb_eq in E as E'. rewrite E'. simpl. f_equal. exact IH.
  - apply Nat.eqb_neq in E as E'. rewrite E'. exact IH.
Qed.

Lemma filter_filter {A} (p q : A -> bool) (l : list A) :
  List.filter q (List.filter p l) = List.filter (fun v => p v && q v) l.
Proof.
  induction l as [|a l IH]; [reflexivity|].
  cbn [List.filter]. destruct (p a); simpl; [|exact IH].
  destruct (q a); [f_equal|]; exact IH.
Qed.

End Counting.

(** ** The histogram of both calls *)

Section Histogram.

Lemma get_bin_edges_50 :
  np.get_bin_edges 50 (of_Z 0, f0_05) = Some (of_Z 0, f0_05, bin_edges).
Proof. vm_compute. reflexivity. Qed.

Lemma bin_edges_increasing : increasing bin_edges = true.
Proof. vm_compute. reflexivity. Qed.

Lemma bin_edges_length : length bin_edges = 51%nat.
Proof. vm_compute. reflexivity. Qed.

Lemma bin_edges_cons : bin_edges = of_Z 0 :: tl bin_edges.
Proof. vm_compute. reflexivity. Qed.

Lemma bin_edges_last d : List.last (tl bin_edges) d = f0_05.
Proof. vm_compute. reflexivity. Qed.

Lemma tl_bin_edges_length : length (tl bin_edges) = 50%nat.
Proof. vm_compute. reflexivity. Qed.

(** [np.histogram] with the arguments of the script. *)
Lemma histogram_50 (x : list float64) :
  np.histogram x 50 (of_Z 0, f0_05) = Some (counts x, bin_edges).
Proof. unfold np.histogram. rewrite get_bin_edges_50. reflexivity. Qed.

Lemma bin_index_lt_50 (v : float64) :
  (np.bin_index (tl bin_edges) v < 50)%nat.
Proof.
  rewrite <- tl_bin_edges_length. apply bin_index_lt.
  intros E. pose proof tl_bin_edges_length as L. rewrite E in L. discriminate.
Qed.

Lemma indices_lt (l : list float64) :
  Forall (fun i => (i < 50)%nat) (map (np.bin_index (tl bin_edges)) l).
Proof.
  apply Forall_map. apply Forall_forall. intros v _. apply bin_index_lt_50.
Qed.

Lemma counts_spec (x : list float64) :
  counts x =
  map (fun i => count_occ Nat.eq_dec
                  (map (np.bin_index (tl bin_edges)) (List.filter in_range x)) i)
      (seq 0 50).
Proof. unfold counts. apply bincount_exact, indices_lt. Qed.

Lemma counts_length (x : list float64) : length (counts x) = 50%nat.
Proof. rewrite counts_spec, length_map, length_seq. reflexivity. Qed.

Lemma counts_sum (x : list float64) :
  list_sum (counts x) = length (List.filter in_range x).
Proof.
  rewrite counts_spec, list_sum_count_occ by apply indices_lt.
  apply length_map.
Qed.

(** The counts depend on the values in the range only. *)
Lemma counts_filter (x : list float64) :
  counts x = counts (List.filter in_range x).
Proof.
  unfold counts. rewrite filter_filter. f_equal. f_equal.
  apply List.filter_ext. intros v. destruct (in_range v); reflexivity.
Qed.

Lemma counts_perm (x y : list float64) :
  Permutation x y -> counts x = counts y.
Proof.
  intros P. rewrite !counts_spec. apply map_ext. intros i.
  apply Permutation_count_occ. apply Permutation_map.
  clear i. induction P; cbn [List.filter].
  - constructor.
  - destruct (in_range x); [constructor|]; exact IHP.
  - destruct (in_range x), (in_range y);
      first [apply perm_swap | apply Permutation_refl].
  - eapply perm_trans; eassumption.
Qed.


Lemma in_bin_in_range i v :
  in_bin bin_edges i v = true -> in_range v = true.
Proof.
  rewrite bin_edges_cons. intros Hin.
  apply in_bin_in_outer in Hin as [H1 H2].
  - rewrite bin_edges_last in H2. unfold in_range, geb.
    change (SFleb (of_Z 0) v) with (leb (of_Z 0) v). rewrite H1, H2. reflexivity.
  - rewrite <- bin_edges_cons. apply bin_edges_increasing.
Qed.

(** Membership in bin [i] is: in the range, with index [i]. *)
Lemma in_bin_spec i v :
  in_bin bin_edges i v =
  in_range v && (np.bin_index (tl bin_edges) v =? i)%nat.
Proof.
  destruct (in_bin bin_edges i v) eqn:Hin.
  - rewrite (in_bin_in_range _ _ Hin). symmetry. apply Nat.eqb_eq.
    rewrite bin_edges_cons in Hin.
    apply in_bin_bin_index in Hin; [exact Hin|].
    rewrite <- bin_edges_cons. apply bin_edges_increasing.
  - destruct (in_range v) eqn:Hr; [|reflexivity].
    destruct (Nat.eqb_spec (np.bin_index (tl bin_edges) v) i) as [<-|]; [|reflexivity].
    unfold in_range, geb in Hr. apply andb_prop in Hr as [H1 H2].
    assert (Hin' : in_bin (of_Z 0 :: tl bin_edges)
                     (np.bin_index (tl bin_edges) v) v = true).
    { apply bin_index_in_bin.
      - intros E. pose proof tl_bin_edges_length as L. rewrite E in L. discriminate.
      - rewrite <- bin_edges_cons. apply bin_edges_increasing.
      - exact H1.
      - rewrite bin_edges_last. exact H2. }
    rewrite <- bin_edges_cons in Hin'. congruence.
Qed.

Lemma counts_lookup (x : list float64) (i : nat) :
  (i < 50)%nat ->
  counts x !! i = Some (length (List.filter (in_bin bin_edges i) x)).
Proof.
  intros Hi. rewrite counts_spec.
  rewrite list_lookup_fmap. rewrite lookup_seq_lt by exact Hi.
  cbn [fmap option_fmap option_map Nat.add].
  f_equal. rewrite count_occ_map_filter, filter_filter.
  f_equal. apply List.filter_ext. intros v. symmetry. apply in_bin_spec.
Qed.

End Histogram.

(** ** Lines, records and fields *)

Section Text.

Lemma append_nil (t : string) : EmptyString ++ t = t.
Proof. reflexivity. Qed.

Lemma append_cons c (s t : string) : String c s ++ t = String c (s ++ t).
Proof. reflexivity. Qed.

Lemma split_not_nil sep s : pd.split sep s <> [].
Proof.
  destruct s as [|c s]; simpl; [discriminate|].
  destruct (Ascii.eqb c sep); [discriminate|].
  destruct (pd.split sep s); discriminate.
Qed.

Lemma split_cons sep c s :
  pd.split sep (String c s) =
  if Ascii.eqb c sep then EmptyString :: pd.split sep s
  else match pd.split sep s with
       | f :: fs => String c f :: fs
       | [] => [String c EmptyString]
       end.
Proof. reflexivity. Qed.

(** A string without the separator is one piece. *)
Lemma split_whole sep s : has_char sep s = false -> pd.split sep s = [s].
Proof.
  induction s as [|c s IH]; [reflexivity|].
  cbn [has_char]. intros H. apply orb_false_elim in H as [Hc Hs].
  rewrite split_cons, Hc, (IH Hs). reflexivity.
Qed.

(** The first piece ends at the first separator. *)
Lemma split_app sep s t :
  has_char sep s = false ->
  pd.split sep (s ++ String sep t) = s :: pd.split sep t.
Proof.
  induction s as [|c s IH].
  - intros _. rewrite append_nil, split_cons, Ascii.eqb_refl. reflexivity.
  - cbn [has_char]. intros H.
    apply orb_false_elim in H as [Hc Hs].
    rewrite append_cons, split_cons, Hc, (IH Hs). reflexivity.
Qed.

Lemma records_app_line l t :
  has_char pd.LF l = false ->
  pd.records (l ++ String pd.LF t) =
  ((if String.eqb l EmptyString then [] else [l]) ++ pd.records t)%list.
Proof.
  intros H. unfold pd.records. rewrite (split_app _ _ _ H).
  cbn [List.filter]. destruct (String.eqb l EmptyString); reflexivity.
Qed.

Lemma records_line l :
  has_char pd.LF l = false ->
  pd.records l = if String.eqb l EmptyString then [] else [l].
Proof.
  intros H. unfold pd.records. rewrite (split_whole _ _ H).
  cbn [List.filter]. destruct (String.eqb l EmptyString); reflexivity.
Qed.

(** The records of a text are its lines that are not empty. *)
Lemma records_unlines trailing lines :
  Forall (fun l => has_char pd.LF l = false) lines ->
  pd.records (unlines trailing lines) =
  List.filter (fun l => negb (String.eqb l EmptyString)) lines.
Proof.
  induction 1 as [|l ls Hl Hls IH]; [reflexivity|].
  destruct ls as [|l' ls].
  - cbn [unlines List.filter]. destruct trailing.
    + rewrite (records_app_line _ _ Hl).
      destruct (String.eqb l EmptyString); reflexivity.
    + rewrite (records_line _ Hl).
      destruct (String.eqb l EmptyString); reflexivity.
  - change (unlines trailing (l :: l' :: ls))
      with (l ++ String pd.LF (unlines trailing (l' :: ls))).
    rewrite (records_app_line _ _ Hl), IH.
    cbn [List.filter]. destruct (String.eqb l EmptyString); reflexivity.
Qed.

Lemma plain_text_app s t :
  pd.plain_text (s ++ t) = pd.plain_text s && pd.plain_text t.
Proof.
  unfold pd.plain_text. induction s as [|c s IH]; [reflexivity|].
  rewrite append_cons. cbn [list_ascii_of_string forallb].
  rewrite IH. destruct (pd.plain_char c); reflexivity.
Qed.

Lemma plain_text_cons c s :
  pd.plain_text (String c s) = pd.plain_char c && pd.plain_text s.
Proof. reflexivity. Qed.

Lemma plain_text_unlines trailing lines :
  pd.plain_text (unlines trailing lines) = forallb pd.plain_text lines.
Proof.
  induction lines as [|l ls IH]; [reflexivity|].
  destruct ls as [|l' ls].
  - cbn [unlines forallb]. rewrite andb_true_r. destruct trailing; [|reflexivity].
    rewrite plain_text_app. rewrite plain_text_cons.
    change (pd.plain_char pd.LF) with true.
    change (pd.plain_text EmptyString) with true.
    rewrite !andb_true_r. reflexivity.
  - change (unlines trailing (l :: l' :: ls))
      with (l ++ String pd.LF (unlines trailing (l' :: ls))).
    rewrite plain_text_app, plain_text_cons, IH.
    change (pd.plain_char pd.LF) with true. reflexivity.
Qed.

(** A text is plain when its lines are. *)
Lemma plain_text_split s :
  pd.plain_text s = forallb pd.plain_text (pd.split pd.LF s).
Proof.
  induction s as [|c s IH]; [reflexivity|].
  rewrite split_cons, plain_text_cons, IH.
  destruct (Ascii.eqb c pd.LF) eqn:E.
  - apply Ascii.eqb_eq in E. subst c. reflexivity.
  - destruct (pd.split pd.LF s) as [|f fs] eqn:Es.
    + exfalso. exact (split_not_nil _ _ Es).
    + cbn [forallb]. rewrite plain_text_cons.
      destruct (pd.plain_char c); reflexivity.
Qed.

(** What a field is made of. *)
Lemma is_field_spec s :
  is_field s = true ->
  pd.plain_text s = true /\ has_char pd.comma s = false /\
  has_char pd.LF s = false.
Proof.
  unfold is_field, pd.plain_text.
  induction s as [|c s IH]; [intros _; repeat split|].
  cbn [list_ascii_of_string forallb has_char]. intros H.
  apply andb_prop in H as [Hc Hs]. destruct (IH Hs) as (P & C & L).
  unfold field_char in Hc.
  apply andb_prop in Hc as [Hc HL]. apply andb_prop in Hc as [Hp HC].
  rewrite Hp, P, C, L.
  apply negb_true_iff in HL. apply negb_true_iff in HC.
  rewrite HL, HC. repeat split.
Qed.

Lemma line_of_spec a b :
  is_field a = true -> is_field b = true ->
  pd.plain_text (line_of (a, b)) = true /\
  has_char pd.LF (line_of (a, b)) = false /\
  String.eqb (line_of (a, b)) EmptyString = false /\
  pd.fields (line_of (a, b)) = Some (a, b).
Proof.
  intros Ha Hb.
  destruct (is_field_spec _ Ha) as (Pa & Ca & La).
  destruct (is_field_spec _ Hb) as (Pb & Cb & Lb).
  unfold line_of. cbn [fst snd]. repeat split.
  - rewrite plain_text_app, plain_text_cons, Pa, Pb. reflexivity.
  - clear -La Lb. induction a as [|c a IH].
    + rewrite append_nil. cbn [has_char]. rewrite Lb. reflexivity.
    + rewrite append_cons. cbn [has_char] in *.
      apply orb_false_elim in La as [Hc La]. rewrite Hc. exact (IH La).
  - destruct a; reflexivity.
  - unfold pd.fields. rewrite (split_app _ _ _ Ca), (split_whole _ _ Cb).
    reflexivity.
Qed.

Lemma sequence_map_some {A B} (f : A -> option B) (g : A -> B) (l : list A) :
  Forall (fun x => f x = Some (g x)) l ->
  pd.sequence (map f l) = Some (map g l).
Proof.
  induction 1 as [|x l Hx Hl IH]; [reflexivity|].
  cbn [map pd.sequence]. rewrite Hx, IH. reflexivity.
Qed.


(** Reordering the elements reorders the result, and a missing element
    stays missing. *)
Lemma sequence_perm {A} (l l' : list (option A)) :
  Permutation l l' ->
  match pd.sequence l, pd.sequence l' with
  | Some r, Some r' => Permutation r r'
  | None, None => True
  | _, _ => False
  end.
Proof.
  induction 1 as [|x l l' P IH|x y l|l l' l'' P1 IH1 P2 IH2].
  - constructor.
  - cbn [pd.sequence]. destruct x as [a|]; [|exact I].
    destruct (pd.sequence l), (pd.sequence l'); try exact IH.
    constructor. exact IH.
  - cbn [pd.sequence]. destruct x as [a|], y as [b|]; try exact I;
      destruct (pd.sequence l); first [apply perm_swap | exact I].
  - destruct (pd.sequence l), (pd.sequence l'), (pd.sequence l'');
      try contradiction; try exact I.
    eapply perm_trans; eassumption.
Qed.

Lemma filter_perm {A} (p : A -> bool) (l l' : list A) :
  Permutation l l' -> Permutation (List.filter p l) (List.filter p l').
Proof.
  induction 1 as [|x l l' P IH|x y l|l l' l'' P1 IH1 P2 IH2];
    cbn [List.filter].
  - constructor.
  - destruct (p x); [constructor|]; exact IH.
  - destruct (p x), (p y); first [apply perm_swap | apply Permutation_refl].
  - eapply perm_trans; eassumption.
Qed.

Lemma forallb_perm {A} (p : A -> bool) (l l' : list A) :
  Permutation l l' -> forallb p l = forallb p l'.
Proof.
  induction 1 as [|x l l' P IH|x y l|l l' l'' P1 IH1 P2 IH2];
    cbn [forallb].
  - reflexivity.
  - rewrite IH. reflexivity.
  - destruct (p x), (p y); reflexivity.
  - congruence.
Qed.

(** The text of a list of records: it is plain, its records are the lines
    of the list, and each line gives back its two fields. *)
Lemma rows_plain (rows : list (string * string)) :
  Forall (fun r => is_field (fst r) = true /\ is_field (snd r) = true) rows ->
  forallb pd.plain_text (map line_of rows) = true.
Proof.
  induction 1 as [|[a b] rows [Ha Hb] _ IH]; [reflexivity|].
  cbn [map forallb]. rewrite IH.
  destruct (line_of_spec a b Ha Hb) as (P & _). rewrite P. reflexivity.
Qed.

Lemma rows_records trailing (rows : list (string * string)) :
  Forall (fun r => is_field (fst r) = true /\ is_field (snd r) = true) rows ->
  pd.records (unlines trailing (map line_of rows)) = map line_of rows.
Proof.
  intros Hrows. rewrite records_unlines.
  - induction Hrows as [|[a b] rows [Ha Hb] _ IH]; [reflexivity|].
    destruct (line_of_spec a b Ha Hb) as (_ & _ & N & _).
    cbn [map List.filter]. rewrite N. cbn [negb]. f_equal. exact IH.
  - induction Hrows as [|[a b] rows [Ha Hb] _ IH]; constructor.
    + apply (line_of_spec a b Ha Hb).
    + exact IH.
Qed.

Lemma rows_fields (rows : list (string * string)) :
  Forall (fun r => is_field (fst r) = true /\ is_field (snd r) = true) rows ->
  pd.sequence (map pd.fields (map line_of rows)) = Some rows.
Proof.
  induction 1 as [|[a b] rows [Ha Hb] _ IH]; [reflexivity|].
  destruct (line_of_spec a b Ha Hb) as (_ & _ & _ & F).
  cbn [map pd.sequence]. rewrite F, IH. reflexivity.
Qed.

Lemma tokenize_none text :
  pd.tokenize None text =
  if pd.plain_text text then pd.sequence (map pd.fields (pd.records text))
  else None.
Proof. reflexivity. Qed.

(** The cells of a text whose lines are the lines of records. *)
Lemma tokenize_rows trailing (rows : list (string * string)) :
  Forall (fun r => is_field (fst r) = true /\ is_field (snd r) = true) rows ->
  pd.tokenize None (unlines trailing (map line_of rows)) = Some rows.
Proof.
  intros Hrows. rewrite tokenize_none.
  rewrite plain_text_unlines, (rows_plain _ Hrows), (rows_records _ _ Hrows).
  apply rows_fields, Hrows.
Qed.

(** With [header=0] the first record is not among the data. *)
Lemma tokenize_rows_header trailing (rows : list (string * string)) :
  Forall (fun r => is_field (fst r) = true /\ is_field (snd r) = true) rows ->
  pd.tokenize (Some 0%nat) (unlines trailing (map line_of rows)) =
  Some (tl rows).
Proof.
  intros Hrows. unfold pd.tokenize.
  rewrite plain_text_unlines, (rows_plain _ Hrows), (rows_records _ _ Hrows).
  destruct rows as [|r rows]; [reflexivity|].
  cbn [map length pd.header_beyond Nat.eqb Nat.leb negb andb skipn tl].
  apply rows_fields. inversion Hrows; assumption.
Qed.

(** The cells of two texts with the same lines in another order. *)
Lemma tokenize_perm t t' :
  Permutation (pd.split pd.LF t) (pd.split pd.LF t') ->
  match pd.tokenize None t, pd.tokenize None t' with
  | Some c, Some c' => Permutation c c'
  | None, None => True
  | _, _ => False
  end.
Proof.
  intros P. rewrite !tokenize_none.
  rewrite (plain_text_split t), (plain_text_split t'), (forallb_perm _ _ _ P).
  destruct (forallb pd.plain_text (pd.split pd.LF t')); [|exact I].
  apply sequence_perm. apply Permutation_map. unfold pd.records.
  apply filter_perm, P.
Qed.

End Text.

(** ** The script, statement by statement *)

Section Pipeline.
Context `{FloatParser} `{Backend}.

Lemma read_csv_eq path w :
  pd.read_csv path None w =
  match files w !! path with
  | None => Raise FileNotFoundError w
  | Some text =>
      match pd.parse None text with
      | Some df => Ret df w
      | None => Unmodelled
      end
  end.
Proof.
  unfold pd.read_csv, bind, get. destruct (files w !! path) as [text|];
    [|reflexivity].
  cbn [pd.header_beyond]. rewrite andb_false_r.
  destruct (pd.parse None text); reflexivity.
Qed.

(** The same for any [header]. *)
Lemma read_csv_header_eq path header w :
  pd.read_csv path header w =
  match files w !! path with
  | None => Raise FileNotFoundError w
  | Some text =>
      if pd.plain_text text && pd.header_beyond header (pd.records text)
      then Raise ParserError w
      else
        match pd.parse header text with
        | Some df => Ret df w
        | None => Unmodelled
        end
  end.
Proof.
  unfold pd.read_csv, bind, get. destruct (files w !! path) as [text|];
    [|reflexivity].
  destruct (pd.plain_text text && pd.header_beyond header (pd.records text));
    [reflexivity|].
  destruct (pd.parse header text); reflexivity.
Qed.

(** [plt.hist] with the arguments of the script never raises. *)
Lemma hist_eq x alpha color label w :
  plt.hist x 50 alpha color label (of_Z 0, f0_05) w =
  plt.on_current (with_axes (fun ax =>
    {| series := series ax ++
         [{| s_counts := counts x; s_edges := bin_edges; s_alpha := alpha;
             s_color := color; s_label := label |}];
       xlim := xlim ax; xlabel := xlabel ax; ylabel := ylabel ax;
       title := title ax; legend := legend ax |})) w.
Proof. unfold plt.hist. rewrite histogram_50. reflexivity. Qed.

(** The same with the figure it draws on: the current one, or a figure with
    the default size when none is open. *)
Lemma hist_series x alpha color label w :
  plt.hist x 50 alpha color label (of_Z 0, f0_05) w =
  Ret tt
    {| files := files w;
       figures :=
         with_axes (fun ax =>
           {| series := series ax ++
                [{| s_counts := counts x; s_edges := bin_edges;
                    s_alpha := alpha; s_color := color; s_label := label |}];
              xlim := xlim ax; xlabel := xlabel ax; ylabel := ylabel ax;
              title := title ax; legend := legend ax |})
           (hd default_figure (figures w)) :: tl (figures w) |}.
Proof.
  rewrite hist_eq. destruct w as [fs [|fig figs]];
    cbv [plt.on_current plt.gcf bind get put ret figures files tl hd];
    reflexivity.
Qed.

(** The statements after the two reads, for the columns [x] and [y]. *)
Lemma plot_eq x y w :
  (plt.figure (of_Z 10, of_Z 6) ;;
   plt.hist x 50 f0_5 "red" "Melanoma" (of_Z 0, f0_05) ;;
   plt.hist y 50 f0_5 "blue" "Normal" (of_Z 0, f0_05) ;;
   plt.xlim (of_Z 0) f0_05 ;;
   plt.xlabel "Ratio" ;;
   plt.ylabel "Frequency" ;;
   plt.title "Distribution of Ratios: Melanoma vs Normal" ;;
   plt.legend ;;
   plt.savefig "ratio_distribution.png" ;;
   plt.close) w =
  Ret tt {| files := <[png_path := print_png (drawn x y)]> (files w);
            figures := figures w |}.
Proof.
  unfold bind at 1. unfold plt.figure at 1. unfold bind at 1, get at 1, put at 1.
  unfold bind at 1. rewrite hist_eq.
  unfold bind at 1. cbv [plt.on_current plt.gcf bind get put ret figures files tl].
  rewrite hist_eq.
  cbv [plt.on_current plt.gcf bind get put ret figures files tl
       plt.xlim plt.xlabel plt.ylabel plt.title plt.legend plt.savefig
       plt.close with_axes gca axes mpl.figsize series mpl.xlim mpl.xlabel
       mpl.ylabel mpl.title mpl.legend empty_axes app map s_label
       List.filter plt.in_legend].
  reflexivity.
Qed.

(** The script in terms of what the two reads give. *)
Lemma display_eq w :
  display w =
  match pd.read_csv mel_path None w with
  | Ret mel_data _ =>
      match pd.read_csv nv_path None w with
      | Ret nv_data _ =>
          Ret tt {| files := <[png_path :=
                        print_png (drawn (pd.ratio mel_data) (pd.ratio nv_data))]>
                      (files w);
                    figures := figures w |}
      | Raise e _ => Raise e w
      | Unmodelled => Unmodelled
      end
  | Raise e _ => Raise e w
  | Unmodelled => Unmodelled
  end.
Proof.
  unfold display. unfold bind at 1. change "mel_ratios.txt" with mel_path.
  rewrite (read_csv_eq mel_path).
  destruct (files w !! mel_path) as [mel_text|]; [|reflexivity].
  destruct (pd.parse None mel_text) as [mel_data|]; [|reflexivity].
  unfold bind at 1. change "nv_ratios.txt" with nv_path.
  rewrite (read_csv_eq nv_path).
  destruct (files w !! nv_path) as [nv_text|]; [|reflexivity].
  destruct (pd.parse None nv_text) as [nv_data|]; [|reflexivity].
  apply plot_eq.
Qed.

End Pipeline.

(** ** The histogram of a column *)

Section HistogramClaims.


Lemma hist_of_0_05 :
  np.histogram [f0_05] 50 (of_Z 0, f0_05) =
  Some ((repeat 0 49 ++ [1])%nat%list, bin_edges).
Proof. vm_compute. reflexivity. Qed.


Lemma counts_drop x1 v x2 :
  in_range v = false -> counts (x1 ++ v :: x2) = counts (x1 ++ x2).
Proof.
  intros Hv. rewrite (counts_filter (x1 ++ v :: x2)), (counts_filter (x1 ++ x2)).
  rewrite !List.filter_app. cbn [List.filter]. rewrite Hv. reflexivity.
Qed.



Lemma bin_edges_steps :
  bin_edges =
  (map (fun i => mul (of_Z (Z.of_nat i)) (div f0_05 (of_Z 50))) (seq 0 50)
     ++ [f0_05])%list.
Proof. vm_compute. reflexivity. Qed.

End HistogramClaims.

(** ** The script on a working directory *)

Section ScriptClaims.
Context `{FloatParser} `{Backend}.

Lemma row_ok_spec (r : string * string) :
  row_ok r = true ->
  is_field (fst r) = true /\ is_field (snd r) = true /\
  to_float (snd r) = Some (value_of r).
Proof.
  unfold row_ok, value_of. intros Hr.
  apply andb_prop in Hr as [Hr Hv]. apply andb_prop in Hr as [Ha Hb].
  destruct (to_float (snd r)); [auto|discriminate].
Qed.

Lemma rows_ok_fields (rows : list (string * string)) :
  forallb row_ok rows = true ->
  Forall (fun r => is_field (fst r) = true /\ is_field (snd r) = true) rows.
Proof.
  intros Hr. apply Forall_forall. intros r Hin.
  apply list_elem_of_In in Hin.
  apply (proj1 (forallb_forall _ _) Hr) in Hin.
  destruct (row_ok_spec _ Hin) as (Ha & Hb & _). split; assumption.
Qed.

Lemma convert_rows (rows : list (string * string)) :
  forallb row_ok rows = true ->
  pd.convert rows =
  Some {| pd.image := map fst rows; pd.ratio := map value_of rows |}.
Proof.
  intros Hr. unfold pd.convert.
  rewrite (sequence_map_some _ value_of); [reflexivity|].
  apply Forall_forall. intros r Hin. apply list_elem_of_In in Hin.
  apply (proj1 (forallb_forall _ _) Hr) in Hin.
  apply (row_ok_spec _ Hin).
Qed.

(** The frame of a text whose lines are the lines of records. *)
Lemma parse_rows trailing (rows : list (string * string)) :
  forallb row_ok rows = true ->
  pd.parse None (unlines trailing (map line_of rows)) =
  Some {| pd.image := map fst rows; pd.ratio := map value_of rows |}.
Proof.
  intros Hr. unfold pd.parse.
  rewrite (tokenize_rows _ _ (rows_ok_fields _ Hr)). apply convert_rows, Hr.
Qed.

(** The ratio column comes from the second fields alone. *)
Lemma convert_snd (c1 c2 : list (string * string)) :
  map snd c1 = map snd c2 ->
  match pd.convert c1, pd.convert c2 with
  | Some d1, Some d2 => pd.ratio d1 = pd.ratio d2
  | None, None => True
  | _, _ => False
  end.
Proof.
  intros E. unfold pd.convert.
  rewrite <- (map_map snd to_float c1), <- (map_map snd to_float c2), E.
  destruct (pd.sequence (map to_float (map snd c2))); [reflexivity|exact I].
Qed.

(** The ratio column of a text whose lines are put in another order. *)
Lemma parse_perm t t' d :
  Permutation (pd.split pd.LF t) (pd.split pd.LF t') ->
  pd.parse None t = Some d ->
  exists d', pd.parse None t' = Some d' /\
             Permutation (pd.ratio d) (pd.ratio d').
Proof.
  intros P. unfold pd.parse. pose proof (tokenize_perm _ _ P) as T.
  destruct (pd.tokenize None t) as [c|]; [|discriminate].
  destruct (pd.tokenize None t') as [c'|]; [|contradiction].
  unfold pd.convert. intros E.
  pose proof (sequence_perm _ _
    (Permutation_map (fun c => to_float (snd c)) T)) as S.
  destruct (pd.sequence (map (fun c => to_float (snd c)) c)) as [v|];
    [|discriminate].
  destruct (pd.sequence (map (fun c => to_float (snd c)) c')) as [v'|];
    [|contradiction].
  injection E as <-. eexists. split; [reflexivity|exact S].
Qed.

Lemma drawn_perm x x' y y' :
  Permutation x x' -> Permutation y y' -> drawn x y = drawn x' y'.
Proof.
  intros Px Py. unfold drawn, bars.
  rewrite (counts_perm _ _ Px), (counts_perm _ _ Py). reflexivity.
Qed.

(** A run in terms of the two input files. *)
Lemma run_eq fs :
  run fs =
  match fs !! mel_path with
  | None => Raise FileNotFoundError (start fs)
  | Some mel_text =>
      match pd.parse None mel_text with
      | None => Unmodelled
      | Some mel_data =>
          match fs !! nv_path with
          | None => Raise FileNotFoundError (start fs)
          | Some nv_text =>
              match pd.parse None nv_text with
              | None => Unmodelled
              | Some nv_data =>
                  Ret tt {| files := <[png_path :=
                                print_png (drawn (pd.ratio mel_data)
                                                 (pd.ratio nv_data))]> fs;
                            figures := [] |}
              end
          end
      end
  end.
Proof.
  unfold run. rewrite display_eq, !read_csv_eq. cbn [start files figures].
  destruct (fs !! mel_path) as [tm|]; [|reflexivity].
  destruct (pd.parse None tm) as [dm|]; [|reflexivity].
  destruct (fs !! nv_path) as [tn|]; [|reflexivity].
  destruct (pd.parse None tn) as [dn|]; reflexivity.
Qed.

Lemma run_loaded fs tm dm tn dn :
  fs !! mel_path = Some tm -> pd.parse None tm = Some dm ->
  fs !! nv_path = Some tn -> pd.parse None tn = Some dn ->
  run fs =
  Ret tt {| files := <[png_path :=
                print_png (drawn (pd.ratio dm) (pd.ratio dn))]> fs;
            figures := [] |}.
Proof. intros E1 E2 E3 E4. rewrite run_eq, E1, E2, E3, E4. reflexivity. Qed.

Lemma run_ok_inv fs :
  exit_status (run fs) = Some 0%Z ->
  exists tm dm tn dn,
    fs !! mel_path = Some tm /\ pd.parse None tm = Some dm /\
    fs !! nv_path = Some tn /\ pd.parse None tn = Some dn.
Proof.
  rewrite run_eq.
  destruct (fs !! mel_path) as [tm|]; [|discriminate].
  destruct (pd.parse None tm) as [dm|] eqn:Pm; [|discriminate].
  destruct (fs !! nv_path) as [tn|]; [|discriminate].
  destruct (pd.parse None tn) as [dn|] eqn:Pn; [|discriminate].
  intros _. exists tm, dm, tn, dn. auto.
Qed.

Lemma output_image_ret (fs : gmap string string) img figs :
  output_image (Ret tt {| files := <[png_path := img]> fs; figures := figs |}) =
  Some img.
Proof. unfold output_image, files_after. cbn [files]. apply lookup_insert_eq. Qed.

(** C3: when an input file is missing the run ends with
    [FileNotFoundError], so the exit status is 1, and the working
    directory is left as it was: [ratio_distribution.png] is not written.
    (When only [nv_ratios.txt] is missing, [mel_ratios.txt] is read
    first and has to be a file the reader covers.) *)
Theorem C3_missing_input (fs : gmap string string) :
  fs !! mel_path = None \/ fs !! nv_path = None ->
  (fs !! mel_path <> None -> readable fs mel_path = true) ->
  run fs = Raise FileNotFoundError (start fs) /\
  exit_status (run fs) = Some 1%Z /\
  exit_status (run fs) <> Some 0%Z /\
  files_after (run fs) = Some fs /\
  output_image (run fs) = fs !! png_path.
Proof.
  intros Hmiss Hread.
  assert (E : run fs = Raise FileNotFoundError (start fs)).
  { rewrite run_eq. unfold readable in Hread.
    destruct (fs !! mel_path) as [tm|]; [|reflexivity].
    destruct (pd.parse None tm) as [dm|].
    - destruct Hmiss as [Hm|Hn]; [discriminate|]. rewrite Hn. reflexivity.
    - assert (false = true) by (apply Hread; discriminate). discriminate. }
  rewrite E. repeat split. discriminate.
Qed.

(** C4: whatever the number of records of the two files, none included,
    the run succeeds and the figure it saves has exactly two series,
    labelled "Melanoma" and "Normal", both listed in the legend. *)
Theorem C4_two_labelled_series (fs : gmap string string)
    (mel_rows nv_rows : list (string * string)) (t1 t2 : bool) :
  forallb row_ok mel_rows = true -> forallb row_ok nv_rows = true ->
  fs !! mel_path = Some (unlines t1 (map line_of mel_rows)) ->
  fs !! nv_path = Some (unlines t2 (map line_of nv_rows)) ->
  let fig := drawn (map value_of mel_rows) (map value_of nv_rows) in
  run fs = Ret tt {| files := <[png_path := print_png fig]> fs;
                     figures := [] |} /\
  exit_status (run fs) = Some 0%Z /\
  map s_label (series (gca fig)) = ["Melanoma"; "Normal"] /\
  legend (gca fig) = Some ["Melanoma"; "Normal"] /\
  map (fun s => list_sum (s_counts s)) (series (gca fig)) =
    [length (List.filter in_range (map value_of mel_rows));
     length (List.filter in_range (map value_of nv_rows))].
Proof.
  intros Hm Hn Em En fig.
  assert (E : run fs = Ret tt {| files := <[png_path := print_png fig]> fs;
                                 figures := [] |}).
  { rewrite (run_loaded fs _ _ _ _ Em (parse_rows _ _ Hm) En (parse_rows _ _ Hn)).
    reflexivity. }
  rewrite E. split; [reflexivity|]. split; [reflexivity|].
  split; [reflexivity|]. split; [reflexivity|].
  unfold fig. cbn [drawn gca axes series map bars s_counts].
  rewrite !counts_sum. reflexivity.
Qed.

(** C5: putting the lines of an input file in another order changes
    neither the success of the run nor the image it writes. *)
Theorem C5_row_order (fs : gmap string string) (path text text' : string) :
  fs !! path = Some text ->
  Permutation (pd.split pd.LF text) (pd.split pd.LF text') ->
  exit_status (run fs) = Some 0%Z ->
  exit_status (run (<[path := text']> fs)) = Some 0%Z /\
  output_image (run (<[path := text']> fs)) = output_image (run fs).
Proof.
  intros Hp P Hok.
  destruct (run_ok_inv _ Hok) as (tm & dm & tn & dn & Em & Pm & En & Pn).
  assert (Hm : exists tm' dm', <[path := text']> fs !! mel_path = Some tm' /\
                 pd.parse None tm' = Some dm' /\
                 Permutation (pd.ratio dm) (pd.ratio dm')).
  { destruct (decide (path = mel_path)) as [->|Hne].
    - rewrite Em in Hp. injection Hp as <-.
      destruct (parse_perm _ _ _ P Pm) as (dm' & Pm' & Q).
      exists text', dm'. rewrite lookup_insert_eq. auto.
    - exists tm, dm. rewrite lookup_insert_ne by exact Hne. auto. }
  assert (Hn : exists tn' dn', <[path := text']> fs !! nv_path = Some tn' /\
                 pd.parse None tn' = Some dn' /\
                 Permutation (pd.ratio dn) (pd.ratio dn')).
  { destruct (decide (path = nv_path)) as [->|Hne].
    - rewrite En in Hp. injection Hp as <-.
      destruct (parse_perm _ _ _ P Pn) as (dn' & Pn' & Q).
      exists text', dn'. rewrite lookup_insert_eq. auto.
    - exists tn, dn. rewrite lookup_insert_ne by exact Hne. auto. }
  destruct Hm as (tm' & dm' & Em' & Pm' & Qm).
  destruct Hn as (tn' & dn' & En' & Pn' & Qn).
  rewrite (run_loaded _ _ _ _ _ Em' Pm' En' Pn').
  rewrite (run_loaded _ _ _ _ _ Em Pm En Pn).
  rewrite !output_image_ret, (drawn_perm _ _ _ _ Qm Qn).
  split; reflexivity.
Qed.

(** C6: the outcome of a run is a function of the two input files.  Two
    working directories with the same two inputs give the same exit
    status and, on success, the same image, whatever else they hold; and
    running the script again in the directory a run has left gives that
    directory again. *)
Theorem C6_deterministic (fs1 fs2 : gmap string string) :
  fs1 !! mel_path = fs2 !! mel_path ->
  fs1 !! nv_path = fs2 !! nv_path ->
  exit_status (run fs1) = exit_status (run fs2) /\
  (exit_status (run fs1) = Some 0%Z ->
     output_image (run fs1) = output_image (run fs2) /\
     output_image (run fs1) <> None) /\
  (forall w, run fs1 = Ret tt w -> run (files w) = Ret tt w).
Proof.
  intros Em En. rewrite !run_eq, <- Em, <- En.
  destruct (fs1 !! mel_path) as [tm|] eqn:Lm;
    [|repeat split; discriminate].
  destruct (pd.parse None tm) as [dm|] eqn:Pm;
    [|repeat split; discriminate].
  destruct (fs1 !! nv_path) as [tn|] eqn:Ln;
    [|repeat split; discriminate].
  destruct (pd.parse None tn) as [dn|] eqn:Pn;
    [|repeat split; discriminate].
  split; [reflexivity|]. split.
  - intros _. rewrite !output_image_ret. split; [reflexivity|discriminate].
  - intros w Hw. injection Hw as <-. cbn [files].
    rewrite (run_loaded _ tm dm tn dn).
    + rewrite insert_insert_eq. reflexivity.
    + rewrite lookup_insert_ne by discriminate. exact Lm.
    + exact Pm.
    + rewrite lookup_insert_ne by discriminate. exact Ln.
    + exact Pn.
Qed.

(** C7: the identifiers do not take part in the computation.  Two working
    directories whose input files have, record by record, the same ratio
    fields (and any identifiers) give the same exit status and, on
    success, the same image. *)
Theorem C7_identifier_unused (fs1 fs2 : gmap string string)
    (m1 m2 n1 n2 : list (string * string)) :
  cells_of fs1 mel_path = Some m1 -> cells_of fs2 mel_path = Some m2 ->
  cells_of fs1 nv_path = Some n1 -> cells_of fs2 nv_path = Some n2 ->
  map snd m1 = map snd m2 -> map snd n1 = map snd n2 ->
  exit_status (run fs1) = exit_status (run fs2) /\
  (exit_status (run fs1) = Some 0%Z ->
     output_image (run fs1) = output_image (run fs2) /\
     output_image (run fs1) <> None).
Proof.
  unfold cells_of. intros C1 C2 C3 C4 Em En. rewrite !run_eq.
  destruct (fs1 !! mel_path) as [tm1|]; [|discriminate].
  destruct (fs2 !! mel_path) as [tm2|]; [|discriminate].
  destruct (fs1 !! nv_path) as [tn1|]; [|discriminate].
  destruct (fs2 !! nv_path) as [tn2|]; [|discriminate].
  unfold pd.parse. rewrite C1, C2, C3, C4.
  pose proof (convert_snd _ _ Em) as Hm. pose proof (convert_snd _ _ En) as Hn.
  destruct (pd.convert m1) as [dm1|], (pd.convert m2) as [dm2|];
    try contradiction; [|split; [reflexivity|discriminate]].
  destruct (pd.convert n1) as [dn1|], (pd.convert n2) as [dn2|];
    try contradiction; [|split; [reflexivity|discriminate]].
  split; [reflexivity|]. intros _.
  rewrite !output_image_ret, Hm, Hn. split; [reflexivity|discriminate].
Qed.

(** C8: the reader makes one record of every line [identifier,ratio], in
    the order of the file and with the first line among them: no header
    row is taken away.  (With [header=0] the first line would be.) *)
Theorem C8_one_record_per_line (w : World) (path : string)
    (rows : list (string * string)) (trailing : bool) :
  forallb row_ok rows = true ->
  files w !! path = Some (unlines trailing (map line_of rows)) ->
  exists df,
    pd.read_csv path None w = Ret df w /\
    pd.image df = map fst rows /\
    pd.ratio df = map value_of rows /\
    length (pd.image df) = length rows /\
    length (pd.ratio df) = length rows /\
    pd.read_csv path (Some 0%nat) w =
      Ret {| pd.image := map fst (tl rows);
             pd.ratio := map value_of (tl rows) |} w.
Proof.
  intros Hr Ef. eexists.
  rewrite read_csv_eq, read_csv_header_eq, Ef, (parse_rows _ _ Hr).
  split; [reflexivity|]. cbn [pd.image pd.ratio].
  rewrite !length_map. repeat split.
  rewrite plain_text_unlines, (rows_plain _ (rows_ok_fields _ Hr)).
  rewrite (rows_records _ _ (rows_ok_fields _ Hr)).
  replace (pd.header_beyond (Some 0%nat) _) with false
    by (destruct rows; reflexivity).
  cbn [andb].
  unfold pd.parse. rewrite (tokenize_rows_header _ _ (rows_ok_fields _ Hr)).
  rewrite convert_rows; [reflexivity|].
  destruct rows as [|r rows]; [reflexivity|].
  cbn [forallb tl] in *. apply andb_prop in Hr. apply Hr.
Qed.

(** C9: when the script runs to its end, the only change to the working
    directory is that [ratio_distribution.png] holds the image of the
    figure drawn, whatever it held before, and the figures kept by pyplot
    are the ones there were before the run: the figure of the script has
    been closed. *)
Theorem C9_saved_and_closed (w w' : World) :
  display w = Ret tt w' ->
  exists mel_data nv_data,
    pd.read_csv mel_path None w = Ret mel_data w /\
    pd.read_csv nv_path None w = Ret nv_data w /\
    files w' = <[png_path :=
                   print_png (drawn (pd.ratio mel_data) (pd.ratio nv_data))]>
                 (files w) /\
    files w' !! png_path =
      Some (print_png (drawn (pd.ratio mel_data) (pd.ratio nv_data))) /\
    (forall p, p <> png_path -> files w' !! p = files w !! p) /\
    figures w' = figures w.
Proof.
  rewrite display_eq, !read_csv_eq.
  destruct (files w !! mel_path) as [tm|]; [|discriminate].
  destruct (pd.parse None tm) as [dm|]; [|discriminate].
  destruct (files w !! nv_path) as [tn|]; [|discriminate].
  destruct (pd.parse None tn) as [dn|]; [|discriminate].
  intros E. injection E as <-. exists dm, dn. cbn [files figures].
  split; [reflexivity|]. split; [reflexivity|]. split; [reflexivity|].
  split; [apply lookup_insert_eq|]. split; [|reflexivity].
  intros p Hp. apply lookup_insert_ne. congruence.
Qed.

(** C2: both data sets are binned with the same fifty bins.  When the two
    files are read, the script saves a figure whose two series carry the
    same 51 edges and 50 counts each; every call of [hist] with the bins
    and the range of the script adds a series with these edges; and the
    edges do not depend on the data: they are [linspace(0, 0.05, 51)],
    that is [i * (0.05 / 50)] for [i] below 50 and then 0.05, and they
    increase. *)
Theorem C2_same_bins (w : World) (mel_data nv_data : pd.DataFrame) :
  pd.read_csv mel_path None w = Ret mel_data w ->
  pd.read_csv nv_path None w = Ret nv_data w ->
  (display w =
     Ret tt {| files := <[png_path :=
                   print_png (drawn (pd.ratio mel_data) (pd.ratio nv_data))]>
                 (files w);
               figures := figures w |} /\
   map s_edges (series (gca (drawn (pd.ratio mel_data) (pd.ratio nv_data)))) =
     [bin_edges; bin_edges] /\
   map (fun s => length (s_counts s))
       (series (gca (drawn (pd.ratio mel_data) (pd.ratio nv_data)))) =
     [50; 50]%nat) /\
  (forall x alpha color label w0,
     exists fig s,
       plt.hist x 50 alpha color label (of_Z 0, f0_05) w0 =
         Ret tt {| files := files w0; figures := fig :: tl (figures w0) |} /\
       series (gca fig) =
         (series (gca (hd default_figure (figures w0))) ++ [s])%list /\
       s_edges s = bin_edges /\ length (s_counts s) = 50%nat) /\
  (forall x y : list float64,
     np.histogram x 50 (of_Z 0, f0_05) = Some (counts x, bin_edges) /\
     np.histogram y 50 (of_Z 0, f0_05) = Some (counts y, bin_edges) /\
     length (counts x) = 50%nat /\ length (counts y) = 50%nat /\
     length bin_edges = 51%nat /\
     bin_edges = np.linspace (of_Z 0) f0_05 51 /\
     bin_edges =
       (map (fun i => mul (of_Z (Z.of_nat i)) (div f0_05 (of_Z 50))) (seq 0 50)
          ++ [f0_05])%list /\
     bin_edges !! 0%nat = Some (of_Z 0) /\
     increasing bin_edges = true /\
     map s_edges (series (gca (drawn x y))) = [bin_edges; bin_edges] /\
     map (fun s => length (s_counts s)) (series (gca (drawn x y))) =
       [50; 50]%nat).
Proof.
  intros Em En. split; [|split].
  - split; [rewrite display_eq, Em, En; reflexivity|].
    split; [reflexivity|].
    cbn [drawn gca axes series map bars s_counts]. rewrite !counts_length.
    reflexivity.
  - intros x alpha color label w0. eexists. eexists.
    split; [apply hist_series|].
    cbn [with_axes gca axes series s_edges s_counts].
    split; [reflexivity|]. split; [reflexivity|apply counts_length].
  - intros x y.
    split; [apply histogram_50|].
    split; [apply histogram_50|].
    split; [apply counts_length|].
    split; [apply counts_length|].
    split; [apply bin_edges_length|].
    split; [reflexivity|].
    split; [apply bin_edges_steps|].
    split; [vm_compute; reflexivity|].
    split; [apply bin_edges_increasing|].
    split; [reflexivity|].
    cbn [drawn gca axes series map bars s_counts]. rewrite !counts_length.
    reflexivity.
Qed.

(** C10: the fifty bins split the values of the range among them.  When the
    two files are read, the two series of the figure the script saves carry
    the counts of the two ratio columns, and every call of [hist] with the
    bins and the range of the script adds a series with the counts of its
    column.  Of these counts: there are fifty, their sum is the number of
    values of the column inside [0, 0.05], every such value lies in exactly
    one bin, and the count of a bin is the number of values of the column
    that lie in it. *)
Theorem C10_bins_partition (w : World) (mel_data nv_data : pd.DataFrame) :
  pd.read_csv mel_path None w = Ret mel_data w ->
  pd.read_csv nv_path None w = Ret nv_data w ->
  (display w =
     Ret tt {| files := <[png_path :=
                   print_png (drawn (pd.ratio mel_data) (pd.ratio nv_data))]>
                 (files w);
               figures := figures w |} /\
   map s_counts (series (gca (drawn (pd.ratio mel_data) (pd.ratio nv_data)))) =
     [counts (pd.ratio mel_data); counts (pd.ratio nv_data)]) /\
  (forall x alpha color label w0,
     exists fig s,
       plt.hist x 50 alpha color label (of_Z 0, f0_05) w0 =
         Ret tt {| files := files w0; figures := fig :: tl (figures w0) |} /\
       series (gca fig) =
         (series (gca (hd default_figure (figures w0))) ++ [s])%list /\
       s_counts s = counts x) /\
  (forall x : list float64,
     np.histogram x 50 (of_Z 0, f0_05) = Some (counts x, bin_edges) /\
     length (counts x) = 50%nat /\
     list_sum (counts x) = length (List.filter in_range x) /\
     (forall v, in_range v = true ->
        exists i, (i < 50)%nat /\ in_bin bin_edges i v = true /\
                  forall j, in_bin bin_edges j v = true -> j = i) /\
     (forall i, (i < 50)%nat ->
        counts x !! i = Some (length (List.filter (in_bin bin_edges i) x)))).
Proof.
  intros Em En. split; [|split].
  - split; [rewrite display_eq, Em, En; reflexivity|reflexivity].
  - intros x alpha color label w0. eexists. eexists.
    split; [apply hist_series|].
    cbn [with_axes gca axes series s_counts].
    split; reflexivity.
  - intros x.
    split; [apply histogram_50|].
    split; [apply counts_length|].
    split; [apply counts_sum|].
    split.
    + intros v Hv. exists (np.bin_index (tl bin_edges) v). split; [|split].
      * apply bin_index_lt_50.
      * rewrite in_bin_spec, Hv, Nat.eqb_refl. reflexivity.
      * intros j Hj. rewrite in_bin_spec, Hv in Hj.
        apply Nat.eqb_eq in Hj. symmetry. exact Hj.
    + intros i Hi. apply counts_lookup, Hi.
Qed.

End ScriptClaims.

(** ** The theorems on the example *)

(** The text [0.05] is read as the number 0.05 of the script. *)
Lemma short_decimal_0_05 : short_decimal "0.05" = Some f0_05.
Proof. vm_compute. reflexivity. Qed.

(** A file that holds the one record [img1,0.05]: the run counts it in the
    last bin of the first series. *)
Lemma run_at_0_05 :
  output_image
    (@run short_decimal_parser text_backend
       (sample_dir (unlines true [line_of ("img1", "0.05")]) "")) =
  Some (show_figure (drawn [f0_05] [])) /\
  counts [f0_05] = (repeat 0 49 ++ [1])%nat%list.
Proof. split; vm_compute; reflexivity. Qed.


(** C2 on the example. *)
Lemma C2_witness :
  @display short_decimal_parser text_backend
    (start (sample_dir sample_mel sample_nv)) =
  Ret tt
    {| files := <[png_path :=
            show_figure
              (drawn [div (of_Z 1) (of_Z 100); div (of_Z 2) (of_Z 100)]
                     [div (of_Z 5) (of_Z 1000)])]>
          (sample_dir sample_mel sample_nv);
       figures := [] |}.
Proof.
  refine (proj1 (proj1 (@C2_same_bins short_decimal_parser text_backend
            (start (sample_dir sample_mel sample_nv))
            {| pd.image := ["img1"; "img2"];
               pd.ratio := [div (of_Z 1) (of_Z 100); div (of_Z 2) (of_Z 100)] |}
            {| pd.image := ["img1"];
               pd.ratio := [div (of_Z 5) (of_Z 1000)] |} _ _))).
  - vm_compute. reflexivity.
  - vm_compute. reflexivity.
Defined.

(** C3 on a directory that holds [mel_ratios.txt] only. *)
Lemma C3_witness :
  exit_status
    (@run short_decimal_parser text_backend (<[mel_path := sample_mel]> ∅)) =
  Some 1%Z.
Proof.
  refine (proj1 (proj2 (@C3_missing_input short_decimal_parser text_backend
            (<[mel_path := sample_mel]> ∅) _ _))).
  - right. vm_compute. reflexivity.
  - intros _. vm_compute. reflexivity.
Defined.

(** C4 on the melanoma file of the example and an empty [nv_ratios.txt]. *)
Lemma C4_witness :
  exit_status
    (@run short_decimal_parser text_backend (sample_dir sample_mel "")) =
  Some 0%Z.
Proof.
  refine (proj1 (proj2 (@C4_two_labelled_series short_decimal_parser
            text_backend (sample_dir sample_mel "") sample_mel_rows [] true true
            _ _ _ _))).
  - vm_compute. reflexivity.
  - vm_compute. reflexivity.
  - vm_compute. reflexivity.
  - vm_compute. reflexivity.
Defined.

(** C5 on the example, the two lines of [mel_ratios.txt] exchanged. *)
Lemma C5_witness :
  output_image
    (@run short_decimal_parser text_backend
       (<[mel_path := sample_mel_swapped]> (sample_dir sample_mel sample_nv))) =
  output_image
    (@run short_decimal_parser text_backend (sample_dir sample_mel sample_nv)).
Proof.
  refine (proj2 (@C5_row_order short_decimal_parser text_backend
            (sample_dir sample_mel sample_nv) mel_path sample_mel
            sample_mel_swapped _ _ _)).
  - vm_compute. reflexivity.
  - vm_compute. apply perm_swap.
  - vm_compute. reflexivity.
Defined.

(** C6 on the example, with and without an older [ratio_distribution.png]. *)
Lemma C6_witness :
  exit_status
    (@run short_decimal_parser text_backend (sample_dir sample_mel sample_nv)) =
  exit_status
    (@run short_decimal_parser text_backend
       (<[png_path := "old"]> (sample_dir sample_mel sample_nv))).
Proof.
  refine (proj1 (@C6_deterministic short_decimal_parser text_backend
            (sample_dir sample_mel sample_nv)
            (<[png_path := "old"]> (sample_dir sample_mel sample_nv)) _ _)).
  - vm_compute. reflexivity.
  - vm_compute. reflexivity.
Defined.

(** C7 on the example, the identifiers of [mel_ratios.txt] replaced. *)
Lemma C7_witness :
  exit_status
    (@run short_decimal_parser text_backend (sample_dir sample_mel sample_nv)) =
  exit_status
    (@run short_decimal_parser text_backend
       (sample_dir sample_mel_renamed sample_nv)).
Proof.
  refine (proj1 (@C7_identifier_unused short_decimal_parser text_backend
            (sample_dir sample_mel sample_nv)
            (sample_dir sample_mel_renamed sample_nv)
            sample_mel_rows [("a.jpg", "0.01"); ("b.jpg", "0.02")]
            sample_nv_rows sample_nv_rows _ _ _ _ _ _)).
  - vm_compute. reflexivity.
  - vm_compute. reflexivity.
  - vm_compute. reflexivity.
  - vm_compute. reflexivity.
  - reflexivity.
  - reflexivity.
Defined.

(** C8 on [mel_ratios.txt] of the example. *)
Lemma C8_witness :
  exists df,
    @pd.read_csv short_decimal_parser mel_path None
      (start (sample_dir sample_mel sample_nv)) =
    Ret df (start (sample_dir sample_mel sample_nv)) /\
    pd.image df = ["img1"; "img2"].
Proof.
  destruct (@C8_one_record_per_line short_decimal_parser
              (start (sample_dir sample_mel sample_nv)) mel_path
              sample_mel_rows true)
    as (df & E & I & _).
  - vm_compute. reflexivity.
  - vm_compute. reflexivity.
  - exists df. split; [exact E | exact I].
Defined.

(** C9 on the example: no figure is left open. *)
Lemma C9_witness : figures sample_after = [].
Proof.
  destruct (@C9_saved_and_closed short_decimal_parser text_backend
              (start (sample_dir sample_mel sample_nv)) sample_after)
    as (mel_data & nv_data & _ & _ & _ & _ & _ & F).
  - vm_compute. reflexivity.
  - exact F.
Defined.

(** C10 on the example. *)
Lemma C10_witness :
  map s_counts
    (series (gca (drawn [div (of_Z 1) (of_Z 100); div (of_Z 2) (of_Z 100)]
                        [div (of_Z 5) (of_Z 1000)]))) =
  [counts [div (of_Z 1) (of_Z 100); div (of_Z 2) (of_Z 100)];
   counts [div (of_Z 5) (of_Z 1000)]].
Proof.
  refine (proj2 (proj1 (@C10_bins_partition short_decimal_parser text_backend
            (start (sample_dir sample_mel sample_nv))
            {| pd.image := ["img1"; "img2"];
               pd.ratio := [div (of_Z 1) (of_Z 100); div (of_Z 2) (of_Z 100)] |}
            {| pd.image := ["img1"];
               pd.ratio := [div (of_Z 5) (of_Z 1000)] |} _ _))).
  - vm_compute. reflexivity.
  - vm_compute. reflexivity.
Defined.

(** ** More on the histogram of the script *)

Section HistogramMore.

Lemma zip_with_map_seq (f g : nat -> nat) (l : list nat) :
  zip_with Nat.add (map f l) (map g l) = map (fun i => (f i + g i)%nat) l.
Proof.
  induction l as [|a l IH]; [reflexivity|]. cbn [map zip_with].
  rewrite IH. reflexivity.
Qed.

(** With the bins and the range of the script, the histogram of two columns
    put one after the other is the sum, bin by bin, of their histograms, on
    the same edges. *)
Theorem histogram_app (a b : list float64) (ma mb : list nat)
    (ea eb : list float64) :
  np.histogram a 50 (of_Z 0, f0_05) = Some (ma, ea) ->
  np.histogram b 50 (of_Z 0, f0_05) = Some (mb, eb) ->
  eb = ea /\
  np.histogram (a ++ b) 50 (of_Z 0, f0_05) = Some (zip_with Nat.add ma mb, ea).
Proof.
  rewrite !histogram_50. intros [= <- <-] [= <- <-]. split; [reflexivity|].
  f_equal. f_equal. rewrite !counts_spec, zip_with_map_seq.
  apply map_ext. intros i.
  rewrite List.filter_app, map_app. apply count_occ_app.
Qed.

Lemma bin_index_le (uppers : list float64) (v v' : float64) :
  leb v v' = true ->
  (np.bin_index uppers v <= np.bin_index uppers v')%nat.
Proof.
  intros Hv. induction uppers as [|u us IH]; [reflexivity|].
  destruct us as [|u' us]; [reflexivity|].
  change (np.bin_index (u :: u' :: us) v)
    with (if ltb v u then 0%nat else S (np.bin_index (u' :: us) v)).
  change (np.bin_index (u :: u' :: us) v')
    with (if ltb v' u then 0%nat else S (np.bin_index (u' :: us) v')).
  destruct (ltb v' u) eqn:E'.
  - rewrite (leb_ltb_trans _ _ _ Hv E'). reflexivity.
  - destruct (ltb v u); lia.
Qed.

(** With the edges of the script, a greater value of the range never falls
    in an earlier bin. *)
Theorem bin_index_mono (v v' : float64) :
  in_range v = true -> in_range v' = true -> leb v v' = true ->
  (np.bin_index (tl bin_edges) v <= np.bin_index (tl bin_edges) v')%nat.
Proof. intros _ _ Hv. apply bin_index_le, Hv. Qed.

Lemma filter_length_all {A} (p : A -> bool) (l : list A) :
  length (List.filter p l) = length l <-> Forall (fun v => p v = true) l.
Proof.
  induction l as [|a l IH]; [split; [constructor|reflexivity]|].
  cbn [List.filter]. pose proof (List.filter_length_le p l) as Hle.
  destruct (p a) eqn:E; cbn [length]; split.
  - intros Hl. constructor; [exact E|]. apply IH. lia.
  - intros Hl. inversion Hl; subst. f_equal. apply IH. assumption.
  - intros Hl. lia.
  - intros Hl. inversion Hl; subst. congruence.
Qed.

(** The values the histogram of the script counts are exactly those with
    [0 <= v <= 0.05]: taking a value away changes the histogram when, and
    only when, it lies in the range (NaN does not), and the counts add up
    to the length of the column when, and only when, all its values do. *)
Theorem counted_iff_in_range (x1 x2 : list float64) (v : float64) :
  (np.histogram (x1 ++ v :: x2) 50 (of_Z 0, f0_05) =
   np.histogram (x1 ++ x2) 50 (of_Z 0, f0_05) <-> in_range v = false) /\
  in_range S754_nan = false /\
  (list_sum (counts (x1 ++ v :: x2)) = length (x1 ++ v :: x2) <->
   Forall (fun w => in_range w = true) (x1 ++ v :: x2)).
Proof.
  split; [|split; [reflexivity|]].
  - rewrite !histogram_50. split.
    + intros E. destruct (in_range v) eqn:Hv; [|reflexivity].
      assert (S : list_sum (counts (x1 ++ v :: x2)) =
                  list_sum (counts (x1 ++ x2))) by congruence.
      rewrite !counts_sum, !List.filter_app in S. cbn [List.filter] in S.
      rewrite Hv, !length_app in S. cbn [length] in S. lia.
    + intros Hv. rewrite (counts_drop _ _ _ Hv). reflexivity.
  - rewrite counts_sum. apply filter_length_all.
Qed.

End HistogramMore.

(** ** More on the reader and on the figures *)

Section ScriptMore.
Context `{FloatParser} `{Backend}.


Lemma filter_nonempty_idem (lines : list string) :
  List.filter (fun l => negb (String.eqb l EmptyString))
    (List.filter (fun l => negb (String.eqb l EmptyString)) lines) =
  List.filter (fun l => negb (String.eqb l EmptyString)) lines.
Proof.
  rewrite filter_filter. apply List.filter_ext. intros l.
  destruct (negb (String.eqb l EmptyString)); reflexivity.
Qed.

Lemma forallb_filter_nonempty (lines : list string) :
  forallb pd.plain_text
    (List.filter (fun l => negb (String.eqb l EmptyString)) lines) =
  forallb pd.plain_text lines.
Proof.
  induction lines as [|l lines IH]; [reflexivity|].
  cbn [List.filter forallb]. destruct (String.eqb_spec l EmptyString) as [->|].
  - cbn [negb]. rewrite IH. reflexivity.
  - cbn [negb forallb]. rewrite IH. reflexivity.
Qed.

Lemma Forall_filter_lines (P : string -> Prop) (p : string -> bool) lines :
  Forall P lines -> Forall P (List.filter p lines).
Proof.
  induction 1 as [|l lines Hl _ IH]; [constructor|].
  cbn [List.filter]. destruct (p l); [constructor|]; assumption.
Qed.

(** Empty lines, and a line feed after the last line or none, make no
    difference to what [read_csv] returns: a file and the same file without
    its empty lines give the same frame, or are both missing from what the
    reader covers. *)
Theorem read_csv_blank_lines (w w' : World) (path : string)
    (lines : list string) (t t' : bool) :
  Forall (fun l => has_char pd.LF l = false) lines ->
  files w !! path = Some (unlines t lines) ->
  files w' !! path =
    Some (unlines t'
            (List.filter (fun l => negb (String.eqb l EmptyString)) lines)) ->
  forall df, pd.read_csv path None w = Ret df w <->
             pd.read_csv path None w' = Ret df w'.
Proof.
  intros Hl E E' df. rewrite !read_csv_eq, E, E'.
  assert (P : pd.parse None (unlines t lines) =
              pd.parse None (unlines t'
                (List.filter (fun l => negb (String.eqb l EmptyString)) lines))).
  { unfold pd.parse. rewrite !tokenize_none.
    rewrite !plain_text_unlines, forallb_filter_nonempty.
    rewrite (records_unlines _ _ Hl).
    rewrite (records_unlines _ _ (Forall_filter_lines _ _ _ Hl)).
    rewrite filter_nonempty_idem. reflexivity. }
  rewrite <- P. destruct (pd.parse None (unlines t lines)) as [d|].
  - split; intros [= <-]; reflexivity.
  - split; discriminate.
Qed.

(** A header row that a file with records does not have is a
    [ParserError]. *)
Lemma read_csv_header_beyond (path : string) (k : nat) (w : World)
    (text : string) :
  files w !! path = Some text -> pd.plain_text text = true ->
  (0 < length (pd.records text) <= k)%nat ->
  pd.read_csv path (Some k) w = Raise ParserError w.
Proof.
  intros E Hp [Hpos Hk]. rewrite read_csv_header_eq, E, Hp.
  cbn [andb pd.header_beyond].
  replace (length (pd.records text) =? 0)%nat with false
    by (symmetry; apply Nat.eqb_neq; lia).
  replace (length (pd.records text) <=? k)%nat with true
    by (symmetry; apply Nat.leb_le; lia).
  reflexivity.
Qed.


(** The figures that are open when the script starts leave no trace: two
    states with the same files give the same exit status and leave the
    same files, whatever figures they hold. *)
Theorem display_ignores_open_figures (w1 w2 : World) :
  files w1 = files w2 ->
  exit_status (display w1) = exit_status (display w2) /\
  files_after (display w1) = files_after (display w2).
Proof.
  intros E. rewrite !display_eq, !read_csv_eq, <- E.
  destruct (files w1 !! mel_path) as [tm|]; [|cbn; rewrite E; auto].
  destruct (pd.parse None tm) as [dm|]; [|auto].
  destruct (files w1 !! nv_path) as [tn|]; [|cbn; rewrite E; auto].
  destruct (pd.parse None tn) as [dn|]; [|auto].
  cbn [exit_status files_after files]. rewrite E. auto.
Qed.

(** Two calls of [hist] in a row draw on the same axes: the current figure
    (a new one when no figure is open) gets the two series after the ones
    it had, in the order of the calls; no other figure and no file
    changes. *)
Theorem hist_twice_overlays (x y : list float64) (a1 a2 : float64)
    (c1 l1 c2 l2 : string) (w : World) :
  exists fig,
    (plt.hist x 50 a1 c1 l1 (of_Z 0, f0_05) ;;
     plt.hist y 50 a2 c2 l2 (of_Z 0, f0_05)) w =
    Ret tt {| files := files w; figures := fig :: tl (figures w) |} /\
    figsize fig = figsize (hd default_figure (figures w)) /\
    series (gca fig) =
      (series (gca (hd default_figure (figures w))) ++
       [{| s_counts := counts x; s_edges := bin_edges; s_alpha := a1;
           s_color := c1; s_label := l1 |};
        {| s_counts := counts y; s_edges := bin_edges; s_alpha := a2;
           s_color := c2; s_label := l2 |}])%list.
Proof.
  unfold bind at 1. rewrite hist_eq.
  destruct w as [fs figs]. destruct figs as [|fig figs];
    cbv [plt.on_current plt.gcf bind get put ret figures files tl hd];
    rewrite hist_eq;
    cbv [plt.on_current plt.gcf bind get put ret figures files tl hd];
    eexists; (split; [reflexivity|]);
    cbv [with_axes gca axes mpl.figsize series default_figure empty_axes];
    rewrite <- ?app_assoc; split; reflexivity.
Qed.

End ScriptMore.

(** ** The further theorems on examples *)

(** [histogram_app] for the columns [0.5, 0.05] and [0.0]. *)
Lemma histogram_app_witness :
  bin_edges = bin_edges /\
  np.histogram ([f0_5; f0_05] ++ [zero]) 50 (of_Z 0, f0_05) =
  Some (zip_with Nat.add (counts [f0_5; f0_05]) (counts [zero]), bin_edges).
Proof.
  apply (histogram_app [f0_5; f0_05] [zero]).
  - vm_compute. reflexivity.
  - vm_compute. reflexivity.
Defined.

(** [bin_index_mono] for the two ends of the range. *)
Lemma bin_index_mono_witness :
  (np.bin_index (tl bin_edges) zero <= np.bin_index (tl bin_edges) f0_05)%nat.
Proof.
  apply (bin_index_mono zero f0_05).
  - vm_compute. reflexivity.
  - vm_compute. reflexivity.
  - vm_compute. reflexivity.
Defined.

(** [counted_iff_in_range] for the value 1.0 in the column [0.05, 1.0]. *)
Lemma counted_iff_in_range_witness :
  np.histogram ([f0_05] ++ of_Z 1 :: []) 50 (of_Z 0, f0_05) =
  np.histogram ([f0_05] ++ []) 50 (of_Z 0, f0_05).
Proof.
  apply (proj2 (proj1 (counted_iff_in_range [f0_05] [] (of_Z 1)))).
  vm_compute. reflexivity.
Defined.


(** [read_csv_blank_lines] on the melanoma file of the example with an
    empty line between its two records. *)
Lemma read_csv_blank_lines_witness :
  @pd.read_csv short_decimal_parser mel_path None
    (start (<[mel_path := unlines false ["img1,0.01"; ""; "img2,0.02"]]> ∅)) =
  Ret {| pd.image := ["img1"; "img2"];
         pd.ratio := [div (of_Z 1) (of_Z 100); div (of_Z 2) (of_Z 100)] |}
      (start (<[mel_path := unlines false ["img1,0.01"; ""; "img2,0.02"]]> ∅))
  <->
  @pd.read_csv short_decimal_parser mel_path None
    (start (sample_dir sample_mel sample_nv)) =
  Ret {| pd.image := ["img1"; "img2"];
         pd.ratio := [div (of_Z 1) (of_Z 100); div (of_Z 2) (of_Z 100)] |}
      (start (sample_dir sample_mel sample_nv)).
Proof.
  apply (@read_csv_blank_lines short_decimal_parser
           (start (<[mel_path := unlines false ["img1,0.01"; ""; "img2,0.02"]]> ∅))
           (start (sample_dir sample_mel sample_nv)) mel_path
           ["img1,0.01"; ""; "img2,0.02"] false true).
  - repeat constructor.
  - vm_compute. reflexivity.
  - vm_compute. reflexivity.
Defined.


(** [display_ignores_open_figures] on the example, started with no figure
    and with one figure open. *)
Lemma display_ignores_open_figures_witness :
  exit_status
    (@display short_decimal_parser text_backend
       (start (sample_dir sample_mel sample_nv))) =
  exit_status
    (@display short_decimal_parser text_backend
       {| files := sample_dir sample_mel sample_nv;
          figures := [default_figure] |}).
Proof.
  refine (proj1 (@display_ignores_open_figures short_decimal_parser text_backend
            (start (sample_dir sample_mel sample_nv))
            {| files := sample_dir sample_mel sample_nv;
               figures := [default_figure] |} _)).
  reflexivity.
Defined.
